(** * Bootstrap error estimation for Monte Carlo time series

    A shallow embedding of [measurement.py]: [sample_events], [bootstrap],
    [process_data_for_plotting] and [autocorrelation], together with the
    parts of pandas and numpy they call ([DataFrame.sample], [DataFrame.mean],
    [DataFrame.iloc], [DataFrame.sort_values], [np.mean], [np.std]).

    Numbers.  Python floats are idealised as canonical rationals [Qc]; rounding
    and overflow are not modelled.  The one special value that the pipeline
    can produce from finite data, NaN (the mean of an empty selection), is
    kept: a computed value is an [fl], either [Fin q] or [NaN].  The square
    root used by [np.std] has no exact rational counterpart and is a
    parameter [np_sqrt] of the development.  [autocorrelation] adds and
    multiplies the values of a column in the numpy type of that column, where
    integers wrap around at 64 bits; its arithmetic is a parameter too, an
    [Arithmetic], of which nothing is assumed.

    Randomness.  The process-wide random generator is a state of type [rng]
    threaded through every call that draws from it. *)

From Stdlib Require Import String List ZArith QArith Qcanon Lia Bool.
From Stdlib Require Import Permutation Sorted Ascii DecimalString DecimalNat.
Import ListNotations.

Local Open Scope string_scope.
Local Open Scope Z_scope.

(** ** Exceptions and results *)

(** A raised exception, identified by the name of its class. *)
Inductive exn : Type :=
| Exception (class_name : string).

Definition ValueError : exn := Exception "ValueError".
Definition KeyError : exn := Exception "KeyError".
Definition AssertionError : exn := Exception "AssertionError".
Definition NameError : exn := Exception "NameError".

Inductive result (A : Type) : Type :=
| Ok (a : A)
| Raise (e : exn).

Arguments Ok {A} a.
Arguments Raise {A} e.

Definition bind {A B : Type} (m : result A) (k : A -> result B) : result B :=
  match m with
  | Ok a => k a
  | Raise e => Raise e
  end.

Notation "x <- m ;; k" := (bind m (fun x => k))
  (at level 61, m at next level, right associativity).
Notation "' p <- m ;; k" := (bind m (fun p => k))
  (at level 61, p pattern, m at next level, right associativity).

Definition raises {A : Type} (m : result A) : Prop :=
  exists e, m = Raise e.

(** ** Floating-point values *)

Inductive fl : Type :=
| Fin (q : Qc)
| NaN.

Definition fl_lift2 (f : Qc -> Qc -> Qc) (a b : fl) : fl :=
  match a, b with
  | Fin x, Fin y => Fin (f x y)
  | _, _ => NaN
  end.

Definition fl_add : fl -> fl -> fl := fl_lift2 Qcplus.
Definition fl_sub : fl -> fl -> fl := fl_lift2 Qcminus.
Definition fl_mul : fl -> fl -> fl := fl_lift2 Qcmult.

Definition Qc_of_Z (z : Z) : Qc := Q2Qc (inject_Z z).
Definition Qc_of_nat (n : nat) : Qc := Qc_of_Z (Z.of_nat n).

(** Division of a float by a count; [0.0 / 0] is NaN in numpy. *)
Definition fl_div_nat (a : fl) (n : nat) : fl :=
  match n, a with
  | O, _ => NaN
  | _, Fin x => Fin (x / Qc_of_nat n)%Qc
  | _, NaN => NaN
  end.


(** ** Python dictionaries (insertion ordered) *)

Definition dict (V : Type) : Type := list (string * V).

Fixpoint dict_get {V : Type} (k : string) (d : dict V) : option V :=
  match d with
  | [] => None
  | (k', v) :: d' => if String.eqb k k' then Some v else dict_get k d'
  end.

Definition dict_mem {V : Type} (k : string) (d : dict V) : bool :=
  match dict_get k d with
  | Some _ => true
  | None => false
  end.

(** [d[k] = v]: overwrite in place, or append a new key at the end. *)
Fixpoint dict_set {V : Type} (k : string) (v : V) (d : dict V) : dict V :=
  match d with
  | [] => [(k, v)]
  | (k', v') :: d' =>
      if String.eqb k k' then (k', v) :: d' else (k', v') :: dict_set k v d'
  end.

(** [dict(pairs)] and [d.update(other)]. *)
Definition dict_update {V : Type} (d : dict V) (other : list (string * V)) : dict V :=
  fold_left (fun acc kv => dict_set (fst kv) (snd kv) acc) other d.

Definition dict_of_list {V : Type} (l : list (string * V)) : dict V :=
  dict_update [] l.

Definition dict_keys {V : Type} (d : dict V) : list string := map fst d.

(** [observables[name].append(val)] on a [defaultdict(list)]. *)
Definition dict_append {V : Type} (k : string) (v : V) (d : dict (list V))
  : dict (list V) :=
  match dict_get k d with
  | Some vs => dict_set k (vs ++ [v])%list d
  | None => dict_set k [v] d
  end.

(** ** Data frames *)

Record DataFrame (A : Type) : Type := mkDF {
  columns : list string;
  rows : list (list A)
}.

Arguments mkDF {A} columns rows.
Arguments columns {A} d.
Arguments rows {A} d.

Definition nrows {A : Type} (df : DataFrame A) : nat := length (rows df).

(** Frames produced by [pd.read_csv] have pairwise distinct column names
    ([NoDup (columns df)]); the properties that need it say so. *)

(** Python slice start [l[t:]]: a negative start counts from the end. *)
Definition slice_start (t : Z) (len : nat) : nat :=
  if t <? 0 then Z.to_nat (Z.max 0 (Z.of_nat len + t))
  else Z.to_nat (Z.min t (Z.of_nat len)).

(** [df.iloc[t:]] *)
Definition iloc_from {A : Type} (t : Z) (df : DataFrame A) : DataFrame A :=
  mkDF (columns df) (skipn (slice_start t (nrows df)) (rows df)).

(** Row selection by position, [df.iloc[idx]]. *)
Definition take {A : Type} (idx : list nat) (df : DataFrame A) : DataFrame A :=
  mkDF (columns df) (map (fun i => nth i (rows df) []) idx).

(** The values of the [j]-th column. *)
Definition column_at (j : nat) (rs : list (list Qc)) : list Qc :=
  map (fun r => nth j r 0%Qc) rs.

Fixpoint index_of (k : string) (l : list string) : option nat :=
  match l with
  | [] => None
  | k' :: l' =>
      if String.eqb k k' then Some O
      else match index_of k l' with
           | Some i => Some (S i)
           | None => None
           end
  end.

(** ** The random source *)

Definition rng : Type := list nat.

Definition next (g : rng) : nat * rng :=
  match g with
  | [] => (O, [])
  | r :: g' => (r, g')
  end.

Fixpoint remove_nth {A : Type} (i : nat) (l : list A) : list A :=
  match l, i with
  | [], _ => []
  | _ :: t, O => t
  | x :: t, S i' => x :: remove_nth i' t
  end.

(** [random_state.choice(pool, size=n, replace=False)]: draw one element of
    the remaining pool at a time and remove it. *)
Fixpoint choice (n : nat) (pool : list nat) (g : rng) : list nat * rng :=
  match n with
  | O => ([], g)
  | S n' =>
      match pool with
      | [] => ([], g)
      | p0 :: _ =>
          let (r, g1) := next g in
          let i := Nat.modulo r (length pool) in
          let (rest, g2) := choice n' (remove_nth i pool) g1 in
          (nth i pool p0 :: rest, g2)
      end
  end.

(** [df.sample(n)] with the default [replace=False]. *)
Definition sample {A : Type} (n : Z) (df : DataFrame A) (g : rng)
  : result (DataFrame A * rng) :=
  if n <? 0 then Raise ValueError
  else if Z.of_nat (nrows df) <? n then Raise ValueError
  else
    let (idx, g') := choice (Z.to_nat n) (seq 0 (nrows df)) g in
    Ok (take idx df, g').

(** ** Means *)

Definition Qc_sum (xs : list Qc) : Qc := fold_right Qcplus 0%Qc xs.

(** Mean of one column; NaN for an empty column. *)
Definition col_mean (xs : list Qc) : fl :=
  fl_div_nat (Fin (Qc_sum xs)) (length xs).

(** [df.mean()] as the list of (column name, mean) pairs of the Series. *)
Definition mean (df : DataFrame Qc) : list (string * fl) :=
  map (fun jc => (snd jc, col_mean (column_at (fst jc) (rows df))))
      (combine (seq 0 (length (columns df))) (columns df)).

(** ** [sample_events] *)

Definition fl_of_Z (z : Z) : fl := Fin (Qc_of_Z z).

Definition getitem (k : string) (d : dict fl) : fl :=
  match dict_get k d with
  | Some v => v
  | None => NaN
  end.

(** The two [if] blocks of [sample_events], after the block has been averaged. *)
Definition heat_capacity (system_size : Z) (beta : Qc) (s : dict fl) : dict fl :=
  if dict_mem "E" s && dict_mem "E2" s then
    let c := fl_sub (getitem "E2" s) (fl_mul (getitem "E" s) (getitem "E" s)) in
    dict_set "C" (fl_mul (fl_mul (fl_mul (Fin beta) (Fin beta)) (fl_of_Z system_size)) c) s
  else s.

Definition susceptibility (system_size : Z) (beta : Qc) (s : dict fl) : dict fl :=
  if dict_mem "M" s && dict_mem "M2" s then
    let susc := fl_sub (getitem "M2" s) (fl_mul (getitem "M" s) (getitem "M" s)) in
    dict_set "X" (fl_mul (fl_mul (Fin beta) (fl_of_Z system_size)) susc) s
  else s.

Definition derive (system_size : Z) (beta : Qc) (s : dict fl) : dict fl :=
  susceptibility system_size beta (heat_capacity system_size beta s).

Definition sample_events (df : DataFrame Qc) (system_size : Z) (beta : Qc)
    (sampling_block : Z) (g : rng) : result (dict fl * rng) :=
  '(block, g') <- sample sampling_block df g ;;
  Ok (derive system_size beta (dict_of_list (mean block)), g').

(** ** [autocorrelation] *)

(** [df_raw[name][i]] on a frame with the default integer row labels
    [0 .. len-1]: a label lookup, so an absent column, a negative [i] and an
    [i] past the end all raise [KeyError]. *)
Definition series_at (name : string) (i : Z) (df_raw : DataFrame Qc) : result Qc :=
  match index_of name (columns df_raw) with
  | None => Raise KeyError
  | Some j =>
      if i <? 0 then Raise KeyError
      else match nth_error (rows df_raw) (Z.to_nat i) with
           | Some r => Ok (nth j r 0%Qc)
           | None => Raise KeyError
           end
  end.

(** [range(lo, hi)] *)
Definition range (lo hi : Z) : list Z :=
  map (fun k => lo + Z.of_nat k) (seq 0 (Z.to_nat (hi - lo))).

(** The arithmetic of [autocorrelation].  The values of a column are numpy
    scalars of one type, and the loop adds and multiplies them in that type
    ([np_add], [np_mul]): for an integer column the results wrap around at
    64 bits, for a float column they are rounded.  The last two lines work
    in floating point ([float_div] for [1.0 / (tmax - t)], [float_pow2] for
    [norm**2], [float_mul], [float_sub]).  The values themselves are
    rationals; the operations are taken as given. *)
Record Arithmetic : Type := mkArithmetic {
  np_add : Qc -> Qc -> Qc;
  np_mul : Qc -> Qc -> Qc;
  float_div : Qc -> Qc -> Qc;
  float_pow2 : Qc -> Qc;
  float_mul : Qc -> Qc -> Qc;
  float_sub : Qc -> Qc -> Qc
}.

(** The operations without wrap-around and without rounding. *)
Definition exact_arithmetic : Arithmetic :=
  mkArithmetic Qcplus Qcmult Qcdiv (fun x => x * x)%Qc Qcmult Qcminus.

(** The body of the loop. *)
Definition autocorrelation_step (ar : Arithmetic) (name : string) (t : Z)
    (df_raw : DataFrame Qc) (sums : Qc * Qc * Qc) (i : Z) : result (Qc * Qc * Qc) :=
  let '(sum1, sum2, sum3) := sums in
  a <- series_at name i df_raw ;;
  b <- series_at name (i + t) df_raw ;;
  let sum1 := np_add ar sum1 (np_mul ar a b) in
  a' <- series_at name i df_raw ;;
  let sum2 := np_add ar sum2 a' in
  b' <- series_at name (i + t) df_raw ;;
  let sum3 := np_add ar sum3 b' in
  Ok (sum1, sum2, sum3).

Fixpoint for_each {S : Type} (body : S -> Z -> result S) (s : S) (l : list Z)
  : result S :=
  match l with
  | [] => Ok s
  | i :: l' => s' <- body s i ;; for_each body s' l'
  end.

Definition autocorrelation (ar : Arithmetic) (name : string) (t : Z)
    (df_raw : DataFrame Qc) : result Qc :=
  let tmax := Z.of_nat (nrows df_raw) in
  if negb (t <? tmax) then Raise AssertionError
  else
    '(sum1, sum2, sum3) <-
      for_each (autocorrelation_step ar name t df_raw) (0, 0, 0)%Qc
               (range 0 (tmax - t)) ;;
    let norm := float_div ar 1%Qc (Qc_of_Z (tmax - t)) in
    Ok (float_sub ar (float_mul ar norm sum1)
                     (float_mul ar (float_mul ar (float_pow2 ar norm) sum2) sum3)).

(** ** Sorting a frame by one column *)

(** The order [sort_values] puts floats in: ascending, NaN last. *)
Definition fl_leb (a b : fl) : bool :=
  match a, b with
  | Fin x, Fin y => Qle_bool x y
  | _, NaN => true
  | NaN, Fin _ => false
  end.

Definition fl_le (a b : fl) : Prop := fl_leb a b = true.

Definition cell (j : nat) (r : list fl) : fl := nth j r NaN.

Fixpoint insert_row (j : nat) (r : list fl) (l : list (list fl)) : list (list fl) :=
  match l with
  | [] => [r]
  | h :: t =>
      if fl_leb (cell j r) (cell j h) then r :: h :: t
      else h :: insert_row j r t
  end.

Definition sort_rows (j : nat) (l : list (list fl)) : list (list fl) :=
  fold_right (insert_row j) [] l.

(** [df.sort_values(by)] *)
Definition sort_values (by_ : string) (df : DataFrame fl) : result (DataFrame fl) :=
  match index_of by_ (columns df) with
  | None => Raise KeyError
  | Some j => Ok (mkDF (columns df) (sort_rows j (rows df)))
  end.

(** [pd.DataFrame(rows_list)] for a list of dicts: the columns are the keys
    in order of first appearance, a key a record lacks is NaN in its row. *)
Definition add_column (cols : list string) (k : string) : list string :=
  if existsb (String.eqb k) cols then cols else (cols ++ [k])%list.

Definition frame_columns (rows_list : list (dict fl)) : list string :=
  fold_left (fun cols d => fold_left add_column (dict_keys d) cols) rows_list [].

Definition record_cells (cols : list string) (d : dict fl) : list fl :=
  map (fun c => getitem c d) cols.

Definition frame_of_records (rows_list : list (dict fl)) : DataFrame fl :=
  let cols := frame_columns rows_list in
  mkDF cols (map (record_cells cols) rows_list).

(** [sweep.at[index, col]] *)
Definition at_ (sweep : DataFrame Qc) (index : nat) (col : string) : result Qc :=
  match index_of col (columns sweep) with
  | None => Raise KeyError
  | Some j =>
      match nth_error (rows sweep) index with
      | Some r => Ok (nth j r 0%Qc)
      | None => Raise KeyError
      end
  end.

(** What [process_meta_info] returns for a directory, and the data files of
    the directory whose names match [cold.*\.csv]: for each, the numbers that
    [re.findall("[0-9]+", fname)] finds in its name and the frame that
    [pd.read_csv] reads from it. *)
Record MetaInfo : Type := mkMeta {
  mcs : Z;
  lsize : Z;
  sweep : DataFrame Qc
}.

Record MCFile : Type := mkFile {
  digits : list nat;
  contents : DataFrame Qc
}.

Section Pipeline.

(** [np.sqrt] on the idealised numbers. *)
Variable np_sqrt : Qc -> fl.

Definition fl_sqrt (a : fl) : fl :=
  match a with
  | Fin x => np_sqrt x
  | NaN => NaN
  end.

(** ** [np.mean] and [np.std] of a list of floats *)

Definition fl_sum (vals : list fl) : fl := fold_left fl_add vals (Fin 0%Qc).

Definition np_mean (vals : list fl) : fl := fl_div_nat (fl_sum vals) (length vals).

Definition sq_dev (m x : fl) : fl := let d := fl_sub x m in fl_mul d d.

(** [np.std] with its default [ddof=0]. *)
Definition np_std (vals : list fl) : fl :=
  fl_sqrt (np_mean (map (sq_dev (np_mean vals)) vals)).

(** ** [bootstrap] *)

(** [for name, val in d.items(): observables[name].append(val)] *)
Definition collect (d : dict fl) (observables : dict (list fl)) : dict (list fl) :=
  fold_left (fun obs nv => dict_append (fst nv) (snd nv) obs) d observables.

Fixpoint resample (n : nat) (df : DataFrame Qc) (system_size : Z) (beta : Qc)
    (sampling_block : Z) (observables : dict (list fl)) (g : rng)
  : result (dict (list fl) * rng) :=
  match n with
  | O => Ok (observables, g)
  | S n' =>
      '(d, g1) <- sample_events df system_size beta sampling_block g ;;
      resample n' df system_size beta sampling_block (collect d observables) g1
  end.

(** [for name, vals in observables.items(): ...] *)
Definition summarize (observables : dict (list fl)) : dict fl :=
  fold_left
    (fun estimates nv =>
       let estimates := dict_set (fst nv) (np_mean (snd nv)) estimates in
       let err := fst nv ++ "err" in
       dict_set err (np_std (snd nv)) estimates)
    observables [].

(** [file] is the frame [pd.read_csv(filename)] returns. *)
Definition bootstrap (file : DataFrame Qc) (system_size : Z) (beta : Qc)
    (sampling_block repeat thermalization : Z) (g : rng)
  : result (dict fl * rng) :=
  let df := iloc_from thermalization file in
  '(observables, g') <-
    resample (Z.to_nat repeat) df system_size beta sampling_block [] g ;;
  Ok (summarize observables, g').

(** ** [process_data_for_plotting] *)

(** The default of [bootstrap]'s last parameter, which the call below leaves
    unset. *)
Definition bootstrap_default_thermalization : Z := 1000.

(** The body of the loop over the data files, for one file. *)
Definition process_file (sweep : DataFrame Qc) (system_size : Z)
    (sampling_block repeat thermalization : Z) (f : MCFile) (g : rng)
  : result (dict fl * rng) :=
  match digits f with
  | [] => Raise NameError
  | index :: _ =>
      beta <- at_ sweep index "T" ;;
      k <- at_ sweep index "K" ;;
      let data_dict := dict_set "K" (Fin k) [] in
      let data_dict := dict_set "T" (Fin beta) data_dict in
      '(estimates, g') <-
        bootstrap (contents f) system_size beta repeat thermalization
                  bootstrap_default_thermalization g ;;
      Ok (dict_update data_dict estimates, g')
  end.

Fixpoint process_files (sweep : DataFrame Qc) (system_size : Z)
    (sampling_block repeat thermalization : Z) (files : list MCFile)
    (rows_list : list (dict fl)) (g : rng) : result (list (dict fl) * rng) :=
  match files with
  | [] => Ok (rows_list, g)
  | f :: files' =>
      '(data_dict, g') <-
        process_file sweep system_size sampling_block repeat thermalization f g ;;
      process_files sweep system_size sampling_block repeat thermalization files'
                    (rows_list ++ [data_dict])%list g'
  end.

Definition process_data_for_plotting (meta : MetaInfo) (files : list MCFile)
    (size_multiplier sampling_block : Z) (write : bool)
    (repeat thermalization : Z) (g : rng)
  : result (DataFrame fl * Z * Z * rng) :=
  let system_size := lsize meta * lsize meta * lsize meta * size_multiplier in
  '(rows_list, g') <-
    process_files (sweep meta) system_size sampling_block repeat thermalization
                  files [] g ;;
  df <- sort_values "T" (frame_of_records rows_list) ;;
  Ok (df, mcs meta, system_size, g').


(** The list an observable has after one repeat. *)
Definition single (nv : string * fl) : string * list fl := (fst nv, [snd nv]).

(** The two entries [bootstrap] writes for one observable. *)
Definition entries (nv : string * list fl) : list (string * fl) :=
  [(fst nv, np_mean (snd nv)); (fst nv ++ "err", np_std (snd nv))].

(** [row] is the record the loop over the data files builds for the file
    [f], from some state of the random source. *)
Definition row_of_file (sweep : DataFrame Qc) (system_size : Z)
    (sampling_block repeat thermalization : Z) (f : MCFile) (row : dict fl) : Prop :=
  exists g0 g1,
    process_file sweep system_size sampling_block repeat thermalization f g0 =
    Ok (row, g1).

End Pipeline.

(** ** Auxiliary notions and the inputs of the worked examples *)

(** Equality of computed values: rationals are compared through [Qc_is_canon],
    everything around them structurally. *)
Ltac eq_values :=
  first
    [ reflexivity
    | apply Qc_is_canon; vm_compute; reflexivity
    | progress f_equal; eq_values ].


(** The four-record series of the worked scenario, and the block sample it
    averages to with system size 1 and beta 1. *)
Definition scenario_series : DataFrame Qc :=
  mkDF ["E"; "E2"]
       [ [Qc_of_Z 1; Qc_of_Z 1];
         [Qc_of_Z 3; Qc_of_Z 9];
         [Qc_of_Z 5; Qc_of_Z 25];
         [Qc_of_Z 7; Qc_of_Z 49] ].

Definition scenario_block : dict fl :=
  [("E", Fin (Qc_of_Z 4)); ("E2", Fin (Qc_of_Z 21)); ("C", Fin (Qc_of_Z 5))].

(** The conditions under which [sample_events] adds "C" and "X". *)
Definition derives_C (cols : list string) : Prop := In "E" cols /\ In "E2" cols.
Definition derives_X (cols : list string) : Prop := In "M" cols /\ In "M2" cols.

(** The values [sample_events] stores under "C" and "X". *)
Definition C_value (system_size : Z) (beta : Qc) (s : dict fl) : fl :=
  fl_mul (fl_mul (fl_mul (Fin beta) (Fin beta)) (fl_of_Z system_size))
         (fl_sub (getitem "E2" s) (fl_mul (getitem "E" s) (getitem "E" s))).

Definition X_value (system_size : Z) (beta : Qc) (s : dict fl) : fl :=
  fl_mul (fl_mul (Fin beta) (fl_of_Z system_size))
         (fl_sub (getitem "M2" s) (fl_mul (getitem "M" s) (getitem "M" s))).

(** Rows compared by their [j]-th cell. *)
Definition le_at (j : nat) (r1 r2 : list fl) : Prop := fl_le (cell j r1) (cell j r2).

(** [data_dict] before the estimates are merged into it. *)
Definition run_parameters (k beta : Qc) : dict fl :=
  [("K", Fin k); ("T", Fin beta)].

(** The worked scenario as a directory: one data file with index 0, lattice
    size 1, and K = T = 1 at index 0 of the metadata table. *)
Definition scenario_meta : MetaInfo :=
  mkMeta 100 1 (mkDF ["K"; "T"] [ [Qc_of_Z 1; Qc_of_Z 1] ]).

Definition scenario_file : MCFile := mkFile [0%nat] scenario_series.

(** A square root to run the pipeline with: exact on the squares of the
    rationals, rounded down otherwise, NaN below zero. *)
Definition sqrt_approx (x : Qc) : fl :=
  if Qle_bool 0 x
  then Fin (Q2Qc (Z.sqrt (Qnum x * Zpos (Qden x)) # Qden x))
  else NaN.

(** The table of a successful aggregation. *)
Definition table_of (r : result (DataFrame fl * Z * Z * rng)) : DataFrame fl :=
  match r with
  | Ok (table, _, _, _) => table
  | Raise _ => mkDF [] []
  end.

(** A frame with a single record. *)
Definition one_record (cols : list string) (vals : list Z) : DataFrame Qc :=
  mkDF cols [map Qc_of_Z vals].

(** A long run: 1002 identical records, of which the cut at 1000 leaves two. *)
Definition long_series : DataFrame Qc :=
  mkDF ["E"; "E2"] (List.repeat [Qc_of_Z 2; Qc_of_Z 4] 1002).

(** Two long runs, listed with the higher temperature first. *)
Definition two_runs_meta : MetaInfo :=
  mkMeta 100 2 (mkDF ["K"; "T"] [ [Qc_of_Z 1; Qc_of_Z 5]; [Qc_of_Z 2; Qc_of_Z 3] ]).

Definition two_runs : list MCFile :=
  [mkFile [0%nat] long_series; mkFile [1%nat] long_series].

(** A run whose series records the temperature in a column of its own. *)
Definition T_series : DataFrame Qc :=
  mkDF ["T"] (List.repeat [Qc_of_Z 9] 1001).

(** A state of the random source, and the aggregation of the two long runs
    with [repeat = 2] and [thermalization = 3]. *)
Definition scenario_rng : rng := [3; 1; 5]%nat.

Definition two_runs_result : result (DataFrame fl * Z * Z * rng) :=
  process_data_for_plotting sqrt_approx two_runs_meta two_runs 1 50 false 2 3 [].

(** ** Notions for the resampling loop *)

(** The names a block sample of a frame with columns [cols] has: the raw
    columns, "C" when "E" and "E2" are columns, "X" when "M" and "M2" are. *)
Definition observable (cols : list string) (k : string) : Prop :=
  In k cols \/ (k = "C" /\ derives_C cols) \/ (k = "X" /\ derives_X cols).

(** [observables[k]] read without creating the entry. *)
Definition values_of (k : string) (observables : dict (list fl)) : list fl :=
  match dict_get k observables with
  | Some vs => vs
  | None => []
  end.

(** [v] is what some call of [sample_events] returns under the name [k]. *)
Definition block_value (df : DataFrame Qc) (system_size : Z) (beta : Qc)
    (sampling_block : Z) (k : string) (v : fl) : Prop :=
  exists g d g', sample_events df system_size beta sampling_block g = Ok (d, g') /\
                 dict_get k d = Some v.

(** A number between two bounds. *)
Definition within (lo hi : Qc) (v : fl) : Prop :=
  exists q, v = Fin q /\ (lo <= q)%Qc /\ (q <= hi)%Qc.

(** ** File names and the header of readme.txt *)

(** [[0-9]] *)
Definition is_digit (c : ascii) : bool :=
  (48 <=? nat_of_ascii c)%nat && (nat_of_ascii c <=? 57)%nat.

(** The longest prefix of digits, and what follows it. *)
Fixpoint span_digits (s : string) : string * string :=
  match s with
  | EmptyString => (EmptyString, EmptyString)
  | String c rest =>
      if is_digit c
      then let (ds, r) := span_digits rest in (String c ds, r)
      else (EmptyString, s)
  end.

(** [s] without its prefix [p], when it starts with [p]. *)
Fixpoint strip_prefix (p s : string) : option string :=
  match p, s with
  | EmptyString, _ => Some s
  | String c p', String c' s' => if Ascii.eqb c c' then strip_prefix p' s' else None
  | String _ _, EmptyString => None
  end.

(** [re.findall(prefix + "([0-9]+)", text)] for a literal [prefix]: the text
    is scanned from the left; where [prefix] followed by at least one digit
    starts, the digits that follow (as many as there are) are one result and
    the scan goes on behind them; elsewhere it moves one character on.
    [skip] counts the characters of a match still to be passed. *)
Fixpoint findall_from (prefix : string) (skip : nat) (text : string) : list string :=
  match text with
  | EmptyString => []
  | String _ rest =>
      match skip with
      | S k => findall_from prefix k rest
      | O =>
          match strip_prefix prefix text with
          | Some after =>
              match fst (span_digits after) with
              | EmptyString => findall_from prefix 0 rest
              | ds =>
                  ds :: findall_from prefix
                          (String.length prefix + String.length ds - 1) rest
              end
          | None => findall_from prefix 0 rest
          end
      end
  end.

Definition findall (prefix text : string) : list string := findall_from prefix 0 text.

(** [int(s)] for a string of digits. *)
Fixpoint int_acc (acc : nat) (s : string) : nat :=
  match s with
  | EmptyString => acc
  | String c rest => int_acc (10 * acc + (nat_of_ascii c - 48)) rest
  end.

Definition int (s : string) : nat := int_acc 0 s.

(** The part of [s] before its first newline. *)
Fixpoint before_newline (s : string) : string :=
  match s with
  | EmptyString => EmptyString
  | String c rest =>
      if Ascii.eqb c "010"%char then EmptyString else String c (before_newline rest)
  end.

Fixpoint contains (sub s : string) : bool :=
  match strip_prefix sub s with
  | Some _ => true
  | None =>
      match s with
      | EmptyString => false
      | String _ rest => contains sub rest
      end
  end.

(** [re.match(r'cold.*\.csv', f)]: the name starts with "cold", and ".csv"
    occurs behind it before any newline. *)
Definition is_cold_csv (f : string) : bool :=
  match strip_prefix "cold" f with
  | Some rest => contains ".csv" (before_newline rest)
  | None => false
  end.

(** The data files of a directory listing: for each name that matches, the
    numbers in the name and the frame read from the file. *)
Definition cold_files (listing : list (string * DataFrame Qc)) : list MCFile :=
  map (fun e => mkFile (map int (findall "" (fst e))) (snd e))
      (filter (fun e => is_cold_csv (fst e)) listing).

(** [process_meta_info]: [text1] and [text2] are the first two lines of
    readme.txt, stripped; [table] is the frame [pd.read_csv(readme,
    skiprows=2)] returns. *)
Definition process_meta_info (text1 text2 : string) (table : DataFrame Qc)
  : result MetaInfo :=
  let l := findall "Number of MCS: " text1 in
  let l := (l ++ findall "Lattice Size: " text2)%list in
  match l with
  | [a; b] => Ok (mkMeta (Z.of_nat (int a)) (Z.of_nat (int b)) table)
  | _ => Raise AssertionError
  end.

(** A directory as [process_data_for_plotting] reads it. *)
Record Directory : Type := mkDir {
  readme_line1 : string;
  readme_line2 : string;
  readme_table : DataFrame Qc;
  listing : list (string * DataFrame Qc)
}.

(** The decimal notation of a number. *)
Definition decimal (n : nat) : string := NilEmpty.string_of_uint (Nat.to_uint n).

(** [process_data_for_plotting(path, ...)] from the directory on: the header
    of readme.txt is parsed first, then the matching files are processed. *)
Definition process_data_for_plotting_path (np_sqrt : Qc -> fl) (dir : Directory)
    (size_multiplier sampling_block : Z) (write : bool)
    (repeat thermalization : Z) (g : rng)
  : result (DataFrame fl * Z * Z * rng) :=
  meta <- process_meta_info (readme_line1 dir) (readme_line2 dir) (readme_table dir) ;;
  process_data_for_plotting np_sqrt meta (cold_files (listing dir))
                            size_multiplier sampling_block write repeat thermalization g.

(** The class [MCDataFrame]: its fields, [__init__] and the two properties. *)
Record MCDataFrame : Type := mkMCDataFrame {
  mc_path : string;
  mc_df : DataFrame fl;
  mc_mcs : Z;
  mc_size : Z
}.

Definition MCDataFrame_init (np_sqrt : Qc -> fl) (path : string) (dir : Directory)
    (size_multiplier sampling_block : Z) (write : bool)
    (repeat thermalization : Z) (g : rng) : result (MCDataFrame * rng) :=
  '(df, mcs, size, g') <-
    process_data_for_plotting_path np_sqrt dir size_multiplier sampling_block write
                                   repeat thermalization g ;;
  Ok (mkMCDataFrame path df mcs size, g').

Definition size (self : MCDataFrame) : Z := mc_size self.
Definition mcs_of (self : MCDataFrame) : Z := mc_mcs self.

(** Strings made of digits only, strings without any digit, strings that do
    not begin with a digit, strings without a newline. *)
Fixpoint all_digits (s : string) : bool :=
  match s with
  | EmptyString => true
  | String c rest => is_digit c && all_digits rest
  end.

Fixpoint no_digits (s : string) : bool :=
  match s with
  | EmptyString => true
  | String c rest => negb (is_digit c) && no_digits rest
  end.

Definition starts_with_digit (s : string) : bool :=
  match s with
  | EmptyString => false
  | String c _ => is_digit c
  end.

Definition newline_free (s : string) : Prop := before_newline s = s.

(** The table of the two long runs: the run with T = 3 comes first. *)
Definition two_runs_table : DataFrame fl :=
  mkDF ["K"; "T"; "E"; "Eerr"; "E2"; "E2err"; "C"; "Cerr"]
       [ map (fun z => Fin (Qc_of_Z z)) [2; 3; 2; 0; 4; 0; 0; 0];
         map (fun z => Fin (Qc_of_Z z)) [1; 5; 2; 0; 4; 0; 0; 0] ].

(** ** Inputs of the further examples *)

(** The value of a successful result. *)
Definition value_of {A : Type} (default : A) (r : result A) : A :=
  match r with
  | Ok a => a
  | Raise _ => default
  end.

(** The worked series with a different first record. *)
Definition scenario_series_other_start : DataFrame Qc :=
  mkDF ["E"; "E2"]
       ([Qc_of_Z 100; Qc_of_Z 100] :: skipn 1 (rows scenario_series)).

(** [bootstrap] on the worked series: two repeats of blocks of three. *)
Definition scenario_bootstrap : result (dict fl * rng) :=
  bootstrap sqrt_approx scenario_series 1 (Qc_of_Z 1) 3 2 0 scenario_rng.

(** A directory with two data files and one file of another kind. *)
Definition example_dir : Directory :=
  mkDir "Number of MCS: 100" "Lattice Size: 2"
        (mkDF ["K"; "T"] [ [Qc_of_Z 1; Qc_of_Z 5]; [Qc_of_Z 2; Qc_of_Z 3] ])
        [("cold0.csv", long_series); ("hot0.csv", T_series); ("cold1.csv", long_series)].

Definition example_object : result (MCDataFrame * rng) :=
  MCDataFrame_init sqrt_approx "data" example_dir 1 50 false 2 3 [].

(** * Properties *)

(** ** Dictionaries *)

Lemma dict_get_set {V : Type} (k k' : string) (v : V) (d : dict V) :
  dict_get k (dict_set k' v d) = if String.eqb k k' then Some v else dict_get k d.
Proof.
  induction d as [|[k0 v0] d IH]; simpl.
  - destruct (String.eqb k k'); reflexivity.
  - destruct (String.eqb k' k0) eqn:E0; simpl.
    + apply String.eqb_eq in E0; subst k0.
      destruct (String.eqb k k'); reflexivity.
    + destruct (String.eqb k k0) eqn:E1.
      * apply String.eqb_eq in E1; subst k0.
        rewrite String.eqb_sym, E0. reflexivity.
      * exact IH.
Qed.

Lemma dict_get_In {V : Type} (k : string) (v : V) (d : dict V) :
  dict_get k d = Some v -> In (k, v) d.
Proof.
  induction d as [|[k0 v0] d IH]; simpl; [discriminate|].
  destruct (String.eqb k k0) eqn:E.
  - apply String.eqb_eq in E; subst. intros [= ->]. now left.
  - intros H. right. now apply IH.
Qed.

Lemma dict_get_None {V : Type} (k : string) (d : dict V) :
  dict_get k d = None <-> ~ In k (dict_keys d).
Proof.
  induction d as [|[k0 v0] d IH]; simpl.
  - tauto.
  - destruct (String.eqb k k0) eqn:E.
    + apply String.eqb_eq in E; subst. split; [discriminate|]. intros H; exfalso; auto.
    + apply String.eqb_neq in E. rewrite IH. split.
      * intros H [H1|H1]; [now apply E|now apply H].
      * intros H H1. apply H. now right.
Qed.

Lemma dict_mem_In {V : Type} (k : string) (d : dict V) :
  dict_mem k d = true <-> In k (dict_keys d).
Proof.
  unfold dict_mem. destruct (dict_get k d) eqn:E.
  - split; [intros _|reflexivity].
    apply dict_get_In in E. apply (in_map fst) in E. exact E.
  - apply dict_get_None in E. split; [discriminate|]. intros H; now elim E.
Qed.

(** After [d.update(l)] a key that [l] does not bind keeps its entry of [d]. *)
Lemma dict_get_update_other {V : Type} (k : string) (l : list (string * V)) :
  forall d, ~ In k (map fst l) -> dict_get k (dict_update d l) = dict_get k d.
Proof.
  unfold dict_update.
  induction l as [|[k1 v1] l IH]; intros d H; simpl; [reflexivity|].
  rewrite IH by (intros H1; apply H; now right).
  rewrite dict_get_set.
  destruct (String.eqb k k1) eqn:E; [|reflexivity].
  apply String.eqb_eq in E; subst. exfalso; apply H; now left.
Qed.

(** A key that [l] binds, always to the same value, has that value after
    [d.update(l)]. *)
Lemma dict_get_update_bound {V : Type} (k : string) (v : V) (l : list (string * V)) :
  forall d,
    In k (map fst l) ->
    (forall v', In (k, v') l -> v' = v) ->
    dict_get k (dict_update d l) = Some v.
Proof.
  induction l as [|[k1 v1] l IH]; intros d Hin Hall; [destruct Hin|].
  change (dict_update d ((k1, v1) :: l)) with (dict_update (dict_set k1 v1 d) l).
  destruct (in_dec string_dec k (map fst l)) as [Hl|Hl].
  - apply IH; [exact Hl|]. intros v' H. apply Hall. now right.
  - rewrite dict_get_update_other by exact Hl.
    rewrite dict_get_set.
    destruct Hin as [Hk|Hk]; [|contradiction]. simpl in Hk; subst k1.
    rewrite String.eqb_refl. f_equal. apply Hall. now left.
Qed.

Lemma dict_keys_set {V : Type} (k : string) (v : V) (d : dict V) :
  dict_keys (dict_set k v d) =
  if dict_mem k d then dict_keys d else (dict_keys d ++ [k])%list.
Proof.
  unfold dict_mem.
  induction d as [|[k0 v0] d IH]; simpl; [reflexivity|].
  destruct (String.eqb k k0) eqn:E; simpl; [reflexivity|].
  rewrite IH. destruct (dict_get k d); reflexivity.
Qed.

Lemma dict_set_NoDup {V : Type} (k : string) (v : V) (d : dict V) :
  NoDup (dict_keys d) -> NoDup (dict_keys (dict_set k v d)).
Proof.
  intros H. rewrite dict_keys_set.
  destruct (dict_mem k d) eqn:E; [exact H|].
  assert (Hk : ~ In k (dict_keys d)).
  { intros Hin. apply dict_mem_In in Hin. congruence. }
  apply NoDup_rev in H. rewrite <- (rev_involutive (dict_keys d ++ [k])).
  apply NoDup_rev. rewrite rev_app_distr. simpl. constructor; [|exact H].
  now rewrite <- in_rev.
Qed.

Lemma dict_update_NoDup {V : Type} (l : list (string * V)) :
  forall d, NoDup (dict_keys d) -> NoDup (dict_keys (dict_update d l)).
Proof.
  unfold dict_update.
  induction l as [|[k v] l IH]; intros d H; simpl; [exact H|].
  apply IH. now apply dict_set_NoDup.
Qed.

Lemma dict_keys_update {V : Type} (k : string) (l : list (string * V)) :
  forall d, In k (dict_keys (dict_update d l)) <-> In k (dict_keys d) \/ In k (map fst l).
Proof.
  unfold dict_update.
  induction l as [|[k1 v1] l IH]; intros d; simpl; [tauto|].
  rewrite IH, dict_keys_set.
  destruct (dict_mem k1 d) eqn:E.
  - apply dict_mem_In in E. split; [tauto|].
    intros [H|[H|H]]; auto. subst. auto.
  - rewrite in_app_iff. simpl. tauto.
Qed.

(** ** Drawing without replacement *)

Lemma remove_nth_Permutation {A : Type} (d : A) (l : list A) :
  forall i, (i < length l)%nat -> Permutation (nth i l d :: remove_nth i l) l.
Proof.
  induction l as [|x l IH]; intros i Hi; simpl in *; [lia|].
  destruct i as [|i].
  - reflexivity.
  - simpl. etransitivity; [apply perm_swap|]. constructor. apply IH. lia.
Qed.

Lemma remove_nth_length {A : Type} (l : list A) :
  forall i, (i < length l)%nat -> length (remove_nth i l) = pred (length l).
Proof.
  induction l as [|x l IH]; intros i Hi; simpl in *; [lia|].
  destruct i as [|i]; [reflexivity|].
  simpl. rewrite IH by lia. lia.
Qed.

(** The indices drawn, followed by the indices left in the pool, are the pool
    in some order. *)
Lemma choice_splits_pool (n : nat) :
  forall pool g, exists rest, Permutation (fst (choice n pool g) ++ rest) pool.
Proof.
  induction n as [|n IH]; intros pool g; simpl.
  - exists pool. reflexivity.
  - destruct pool as [|p0 pool'] eqn:Ep; [exists []; reflexivity|].
    rewrite <- Ep.
    destruct (next g) as [r g1].
    assert (Hi : (Nat.modulo r (length pool) < length pool)%nat).
    { apply Nat.mod_upper_bound. subst pool. simpl. lia. }
    set (i := Nat.modulo r (length pool)) in *.
    destruct (IH (remove_nth i pool) g1) as [rest Hrest].
    destruct (choice n (remove_nth i pool) g1) as [chosen g2]. simpl in *.
    exists rest. rewrite Hrest. apply remove_nth_Permutation. exact Hi.
Qed.

Lemma choice_length (n : nat) :
  forall pool g, (n <= length pool)%nat -> length (fst (choice n pool g)) = n.
Proof.
  induction n as [|n IH]; intros pool g Hn; simpl; [reflexivity|].
  destruct pool as [|p0 pool'] eqn:Ep; [simpl in Hn; lia|].
  rewrite <- Ep in *.
  destruct (next g) as [r g1].
  assert (Hi : (Nat.modulo r (length pool) < length pool)%nat).
  { apply Nat.mod_upper_bound. lia. }
  set (i := Nat.modulo r (length pool)) in *.
  specialize (IH (remove_nth i pool) g1).
  rewrite remove_nth_length in IH by exact Hi.
  destruct (choice n (remove_nth i pool) g1) as [chosen g2]. simpl in *.
  rewrite IH; lia.
Qed.


Lemma choice_incl (n : nat) (pool : list nat) (g : rng) :
  incl (fst (choice n pool g)) pool.
Proof.
  destruct (choice_splits_pool n pool g) as [rest Hp].
  intros x Hx. apply (Permutation_in x Hp). apply in_or_app. now left.
Qed.

Lemma choice_all (pool : list nat) (g : rng) :
  Permutation (fst (choice (length pool) pool g)) pool.
Proof.
  destruct (choice_splits_pool (length pool) pool g) as [rest Hp].
  assert (Hl := Permutation_length Hp).
  rewrite length_app, choice_length in Hl by lia.
  destruct rest; [|simpl in Hl; lia].
  now rewrite app_nil_r in Hp.
Qed.

Lemma map_nth_seq {A : Type} (d : A) (l : list A) :
  map (fun i => nth i l d) (seq 0 (length l)) = l.
Proof.
  apply (nth_ext _ _ d d).
  - now rewrite length_map, length_seq.
  - intros n Hn. rewrite length_map, length_seq in Hn.
    rewrite (nth_indep _ d (nth (length l) l d)) by (now rewrite length_map, length_seq).
    rewrite (map_nth (fun i => nth i l d)). now rewrite seq_nth.
Qed.

(** ** Means do not depend on the order of the rows *)

Lemma Qc_sum_Permutation (xs ys : list Qc) :
  Permutation xs ys -> Qc_sum xs = Qc_sum ys.
Proof.
  induction 1; simpl.
  - reflexivity.
  - now rewrite IHPermutation.
  - ring.
  - congruence.
Qed.

Lemma col_mean_Permutation (j : nat) (rs rs' : list (list Qc)) :
  Permutation rs rs' -> col_mean (column_at j rs) = col_mean (column_at j rs').
Proof.
  intros H. unfold col_mean, column_at.
  assert (Hm := Permutation_map (fun r => nth j r 0%Qc) H).
  rewrite (Qc_sum_Permutation _ _ Hm), (Permutation_length Hm). reflexivity.
Qed.

Lemma mean_Permutation (df df' : DataFrame Qc) :
  columns df = columns df' -> Permutation (rows df) (rows df') -> mean df = mean df'.
Proof.
  intros Hc Hr. unfold mean. rewrite Hc.
  apply map_ext. intros [j c]. simpl. f_equal.
  now apply col_mean_Permutation.
Qed.

(** ** [sample] *)

Lemma sample_Ok {A : Type} (n : Z) (df : DataFrame A) (g : rng) :
  0 <= n <= Z.of_nat (nrows df) ->
  sample n df g =
  Ok (take (fst (choice (Z.to_nat n) (seq 0 (nrows df)) g)) df,
      snd (choice (Z.to_nat n) (seq 0 (nrows df)) g)).
Proof.
  intros [H0 H1]. unfold sample.
  destruct (Z.ltb_spec n 0); [lia|].
  destruct (Z.ltb_spec (Z.of_nat (nrows df)) n); [lia|].
  destruct (choice _ _ g). reflexivity.
Qed.

Lemma sample_Raise {A : Type} (n : Z) (df : DataFrame A) (g : rng) :
  n < 0 \/ Z.of_nat (nrows df) < n -> sample n df g = Raise ValueError.
Proof.
  intros H. unfold sample.
  destruct (Z.ltb_spec n 0); [reflexivity|].
  destruct (Z.ltb_spec (Z.of_nat (nrows df)) n); [reflexivity|lia].
Qed.

Lemma sample_inv {A : Type} (n : Z) (df : DataFrame A) (g : rng) block g' :
  sample n df g = Ok (block, g') ->
  0 <= n <= Z.of_nat (nrows df) /\
  block = take (fst (choice (Z.to_nat n) (seq 0 (nrows df)) g)) df /\
  g' = snd (choice (Z.to_nat n) (seq 0 (nrows df)) g).
Proof.
  intros H.
  destruct (Z.ltb_spec n 0) as [Hn|Hn].
  { rewrite sample_Raise in H by lia. discriminate. }
  destruct (Z.ltb_spec (Z.of_nat (nrows df)) n) as [Hm|Hm].
  { rewrite sample_Raise in H by lia. discriminate. }
  rewrite sample_Ok in H by lia. injection H as <- <-. repeat split; lia.
Qed.

Lemma take_all_rows {A : Type} (df : DataFrame A) (idx : list nat) :
  Permutation idx (seq 0 (nrows df)) -> Permutation (rows (take idx df)) (rows df).
Proof.
  intros H. unfold take. simpl.
  rewrite (Permutation_map (fun i => nth i (rows df) []) H).
  unfold nrows. now rewrite map_nth_seq.
Qed.

Lemma sample_whole_frame {A : Type} (df : DataFrame A) (g : rng) block g' :
  sample (Z.of_nat (nrows df)) df g = Ok (block, g') ->
  columns block = columns df /\ Permutation (rows block) (rows df).
Proof.
  intros H. apply sample_inv in H. destruct H as (_ & -> & _).
  split; [reflexivity|].
  apply take_all_rows. rewrite Nat2Z.id.
  rewrite <- (length_seq (nrows df) 0) at 1. apply choice_all.
Qed.


(** ** [sample_events] *)

Lemma sample_events_inv (df : DataFrame Qc) (system_size : Z) (beta : Qc)
    (n : Z) (g : rng) (d : dict fl) (g' : rng) :
  sample_events df system_size beta n g = Ok (d, g') ->
  exists block,
    sample n df g = Ok (block, g') /\
    d = derive system_size beta (dict_of_list (mean block)).
Proof.
  unfold sample_events. destruct (sample n df g) as [[block g1]|e]; simpl; [|discriminate].
  intros [= <- <-]. now exists block.
Qed.

Lemma sample_events_Ok (df : DataFrame Qc) (system_size : Z) (beta : Qc)
    (n : Z) (g : rng) :
  0 <= n <= Z.of_nat (nrows df) ->
  exists d g', sample_events df system_size beta n g = Ok (d, g').
Proof.
  intros H. unfold sample_events. rewrite sample_Ok by exact H. simpl. eauto.
Qed.

Lemma sample_events_Raise (df : DataFrame Qc) (system_size : Z) (beta : Qc)
    (n : Z) (g : rng) :
  n < 0 \/ Z.of_nat (nrows df) < n ->
  sample_events df system_size beta n g = Raise ValueError.
Proof.
  intros H. unfold sample_events. now rewrite sample_Raise.
Qed.

(** A block as large as the frame averages the whole frame, whatever the
    random source does. *)
Lemma sample_events_whole_frame (df : DataFrame Qc) (system_size : Z) (beta : Qc)
    (g : rng) :
  exists g',
    sample_events df system_size beta (Z.of_nat (nrows df)) g =
    Ok (derive system_size beta (dict_of_list (mean df)), g').
Proof.
  destruct (sample_events_Ok df system_size beta (Z.of_nat (nrows df)) g) as (d & g' & H);
    [lia|].
  exists g'. rewrite H.
  apply sample_events_inv in H. destruct H as (block & Hs & ->).
  destruct (sample_whole_frame df g block g' Hs) as [Hc Hr].
  now rewrite (mean_Permutation block df Hc Hr).
Qed.

(** ** The resampling loop of [bootstrap] *)

Lemma resample_Ok (df : DataFrame Qc) (system_size : Z) (beta : Qc) (sb : Z) :
  0 <= sb <= Z.of_nat (nrows df) ->
  forall n observables g,
  exists observables' g',
    resample n df system_size beta sb observables g = Ok (observables', g').
Proof.
  intros Hsb. induction n as [|n IH]; intros observables g; simpl; [eauto|].
  destruct (sample_events_Ok df system_size beta sb g Hsb) as (d & g1 & ->). simpl.
  apply IH.
Qed.

Lemma resample_Raise (df : DataFrame Qc) (system_size : Z) (beta : Qc) (sb : Z) :
  sb < 0 \/ Z.of_nat (nrows df) < sb ->
  forall n observables g,
    resample (S n) df system_size beta sb observables g = Raise ValueError.
Proof.
  intros Hsb n observables g. simpl. now rewrite sample_events_Raise.
Qed.

(** ** One repeat *)



Lemma dict_set_fresh {V : Type} (k : string) (v : V) (d : dict V) :
  ~ In k (dict_keys d) -> dict_set k v d = (d ++ [(k, v)])%list.
Proof.
  induction d as [|[k0 v0] d IH]; simpl; intros H; [reflexivity|].
  destruct (String.eqb k k0) eqn:E.
  - apply String.eqb_eq in E. exfalso. apply H. now left.
  - rewrite IH; [reflexivity|]. intros H1. apply H. now right.
Qed.

(** Collecting one block into observables that share no name with it gives
    every name of the block a one-element list. *)
Lemma collect_fresh (d : dict fl) :
  forall observables,
    NoDup (dict_keys d) ->
    (forall k, In k (dict_keys d) -> ~ In k (dict_keys observables)) ->
    collect d observables = (observables ++ map single d)%list.
Proof.
  unfold collect.
  induction d as [|[k v] d IH]; intros obs Hnd Hdis; simpl.
  - now rewrite app_nil_r.
  - inversion Hnd as [|? ? Hk Hnd']; subst.
    assert (Hfresh : ~ In k (dict_keys obs)) by (apply Hdis; now left).
    unfold dict_append at 2. simpl fst. simpl snd.
    assert (Hg : dict_get k obs = None) by now apply dict_get_None.
    rewrite Hg, (dict_set_fresh k [v] obs Hfresh).
    rewrite IH.
    + rewrite <- app_assoc. reflexivity.
    + exact Hnd'.
    + intros k' Hk'. unfold dict_keys. rewrite map_app, in_app_iff. simpl.
      intros [H|[H|[]]].
      * apply (Hdis k'); [now right|exact H].
      * subst k'. contradiction.
Qed.

Lemma NoDup_keys_functional {V : Type} (d : dict V) (k : string) (v v' : V) :
  NoDup (dict_keys d) -> In (k, v) d -> In (k, v') d -> v = v'.
Proof.
  induction d as [|[k0 v0] d IH]; simpl; intros Hnd H1 H2; [destruct H1|].
  inversion Hnd as [|? ? Hk Hnd']; subst.
  destruct H1 as [H1|H1], H2 as [H2|H2].
  - congruence.
  - injection H1 as -> ->. exfalso. apply Hk. apply (in_map fst) in H2. exact H2.
  - injection H2 as -> ->. exfalso. apply Hk. apply (in_map fst) in H1. exact H1.
  - now apply IH.
Qed.

(** ** Shape of a block sample *)

Lemma derive_NoDup (system_size : Z) (beta : Qc) (s : dict fl) :
  NoDup (dict_keys s) -> NoDup (dict_keys (derive system_size beta s)).
Proof.
  intros H. unfold derive, susceptibility, heat_capacity.
  destruct (dict_mem "E" s && dict_mem "E2" s).
  - match goal with |- context [if ?c then _ else _] => destruct c end;
      repeat apply dict_set_NoDup; exact H.
  - destruct (dict_mem "M" s && dict_mem "M2" s);
      repeat apply dict_set_NoDup; exact H.
Qed.

Lemma sample_events_NoDup (df : DataFrame Qc) (system_size : Z) (beta : Qc)
    (n : Z) (g : rng) (d : dict fl) (g' : rng) :
  sample_events df system_size beta n g = Ok (d, g') -> NoDup (dict_keys d).
Proof.
  intros H. apply sample_events_inv in H. destruct H as (block & _ & ->).
  apply derive_NoDup. apply dict_update_NoDup. constructor.
Qed.

(** ** Finite values *)









(** ** The worked scenario *)

Lemma scenario_derive :
  derive 1 (Qc_of_Z 1) (dict_of_list (mean scenario_series)) = scenario_block.
Proof. vm_compute. eq_values. Qed.

(** ** The entries of a block sample *)

Lemma combine_seq_snd {A : Type} (l : list A) :
  forall s, map snd (combine (seq s (length l)) l) = l.
Proof.
  induction l as [|x l IH]; intros s; simpl; [reflexivity|]. now rewrite IH.
Qed.

Lemma In_combine_seq {A : Type} (l : list A) (j : nat) (c : A) :
  forall s,
    In (j, c) (combine (seq s (length l)) l) <->
    (s <= j)%nat /\ nth_error l (j - s) = Some c.
Proof.
  induction l as [|x l IH]; intros s; simpl.
  - split; [intros []|]. intros [_ H]. destruct (j - s)%nat; discriminate.
  - rewrite IH. split.
    + intros [[= <- <-]|[Hs Hn]].
      * split; [lia|]. now rewrite Nat.sub_diag.
      * split; [lia|]. replace (j - s)%nat with (S (j - S s)) by lia. exact Hn.
    + intros [Hs Hn]. destruct (Nat.eq_dec s j) as [->|Hne].
      * left. rewrite Nat.sub_diag in Hn. simpl in Hn. congruence.
      * right. split; [lia|].
        replace (j - s)%nat with (S (j - S s)) in Hn by lia. exact Hn.
Qed.

Lemma mean_keys (df : DataFrame Qc) : map fst (mean df) = columns df.
Proof.
  unfold mean. rewrite map_map. simpl.
  change (fun x : nat * string => snd x) with (@snd nat string).
  apply combine_seq_snd.
Qed.

Lemma dict_of_mean_keys (df : DataFrame Qc) (k : string) :
  In k (dict_keys (dict_of_list (mean df))) <-> In k (columns df).
Proof.
  unfold dict_of_list. rewrite dict_keys_update, mean_keys. simpl. tauto.
Qed.

(** The Series [df.mean()], turned into a dict, holds for each column its
    mean. *)
Lemma dict_of_mean_get (df : DataFrame Qc) (j : nat) (k : string) :
  NoDup (columns df) ->
  nth_error (columns df) j = Some k ->
  dict_get k (dict_of_list (mean df)) = Some (col_mean (column_at j (rows df))).
Proof.
  intros Hnd Hj. apply dict_get_update_bound.
  - rewrite mean_keys. now apply nth_error_In in Hj.
  - intros v' Hin. unfold mean in Hin. apply in_map_iff in Hin.
    destruct Hin as ([j' c] & [= -> <-] & Hc). simpl.
    apply In_combine_seq in Hc. destruct Hc as [_ Hc].
    rewrite Nat.sub_0_r in Hc.
    assert (j' = j); [|now subst].
    apply (proj1 (NoDup_nth_error (columns df)) Hnd).
    + apply nth_error_Some. congruence.
    + congruence.
Qed.

Lemma In_keys_set {V : Type} (k k' : string) (v : V) (d : dict V) :
  In k (dict_keys (dict_set k' v d)) <-> In k (dict_keys d) \/ k = k'.
Proof.
  rewrite dict_keys_set. destruct (dict_mem k' d) eqn:E.
  - apply dict_mem_In in E. split; [tauto|]. intros [H| ->]; assumption.
  - rewrite in_app_iff. simpl. intuition.
Qed.

Lemma andb_mem_iff (a b : string) (s : dict fl) :
  dict_mem a s && dict_mem b s = true <-> In a (dict_keys s) /\ In b (dict_keys s).
Proof. now rewrite andb_true_iff, !dict_mem_In. Qed.

Lemma heat_capacity_keys (system_size : Z) (beta : Qc) (s : dict fl) (k : string) :
  In k (dict_keys (heat_capacity system_size beta s)) <->
  In k (dict_keys s) \/ (k = "C" /\ derives_C (dict_keys s)).
Proof.
  unfold heat_capacity, derives_C.
  destruct (dict_mem "E" s && dict_mem "E2" s) eqn:E.
  - apply andb_mem_iff in E. rewrite In_keys_set. tauto.
  - split; [tauto|]. intros [H|[_ H]]; [exact H|].
    apply andb_mem_iff in H. congruence.
Qed.

Lemma susceptibility_keys (system_size : Z) (beta : Qc) (s : dict fl) (k : string) :
  In k (dict_keys (susceptibility system_size beta s)) <->
  In k (dict_keys s) \/ (k = "X" /\ derives_X (dict_keys s)).
Proof.
  unfold susceptibility, derives_X.
  destruct (dict_mem "M" s && dict_mem "M2" s) eqn:E.
  - apply andb_mem_iff in E. rewrite In_keys_set. tauto.
  - split; [tauto|]. intros [H|[_ H]]; [exact H|].
    apply andb_mem_iff in H. congruence.
Qed.

Lemma heat_capacity_get (system_size : Z) (beta : Qc) (s : dict fl) (k : string) :
  ~ (k = "C" /\ derives_C (dict_keys s)) ->
  dict_get k (heat_capacity system_size beta s) = dict_get k s.
Proof.
  intros H. unfold heat_capacity.
  destruct (dict_mem "E" s && dict_mem "E2" s) eqn:E; [|reflexivity].
  apply andb_mem_iff in E. rewrite dict_get_set.
  destruct (String.eqb_spec k "C") as [->|_]; [|reflexivity].
  exfalso. apply H. now split.
Qed.

Lemma susceptibility_get (system_size : Z) (beta : Qc) (s : dict fl) (k : string) :
  ~ (k = "X" /\ derives_X (dict_keys s)) ->
  dict_get k (susceptibility system_size beta s) = dict_get k s.
Proof.
  intros H. unfold susceptibility.
  destruct (dict_mem "M" s && dict_mem "M2" s) eqn:E; [|reflexivity].
  apply andb_mem_iff in E. rewrite dict_get_set.
  destruct (String.eqb_spec k "X") as [->|_]; [|reflexivity].
  exfalso. apply H. now split.
Qed.

(** Adding "C" does not change whether "M" and "M2" are present. *)
Lemma derives_X_heat_capacity (system_size : Z) (beta : Qc) (s : dict fl) :
  derives_X (dict_keys (heat_capacity system_size beta s)) <-> derives_X (dict_keys s).
Proof.
  unfold derives_X. rewrite !heat_capacity_keys.
  split; [|tauto]. intros [[H1|[H1 _]] [H2|[H2 _]]]; try discriminate. now split.
Qed.

Lemma derive_keys (system_size : Z) (beta : Qc) (s : dict fl) (k : string) :
  In k (dict_keys (derive system_size beta s)) <->
  In k (dict_keys s) \/
  (k = "C" /\ derives_C (dict_keys s)) \/
  (k = "X" /\ derives_X (dict_keys s)).
Proof.
  unfold derive.
  rewrite susceptibility_keys, derives_X_heat_capacity, heat_capacity_keys. tauto.
Qed.

Lemma derive_get (system_size : Z) (beta : Qc) (s : dict fl) (k : string) :
  ~ (k = "C" /\ derives_C (dict_keys s)) ->
  ~ (k = "X" /\ derives_X (dict_keys s)) ->
  dict_get k (derive system_size beta s) = dict_get k s.
Proof.
  intros HC HX. unfold derive.
  rewrite susceptibility_get, heat_capacity_get; [reflexivity|exact HC|].
  now rewrite derives_X_heat_capacity.
Qed.

Lemma derive_getitem (system_size : Z) (beta : Qc) (s : dict fl) (k : string) :
  k <> "C" -> k <> "X" -> getitem k (derive system_size beta s) = getitem k s.
Proof.
  intros HC HX. unfold getitem. rewrite derive_get; [reflexivity| |]; tauto.
Qed.

Lemma derive_C (system_size : Z) (beta : Qc) (s : dict fl) :
  derives_C (dict_keys s) ->
  dict_get "C" (derive system_size beta s) =
  Some (C_value system_size beta (derive system_size beta s)).
Proof.
  intros H. unfold C_value.
  rewrite !derive_getitem by discriminate.
  unfold derive. rewrite susceptibility_get by (intros [? _]; discriminate).
  unfold heat_capacity.
  apply andb_mem_iff in H. rewrite H, dict_get_set. reflexivity.
Qed.

Lemma derive_X (system_size : Z) (beta : Qc) (s : dict fl) :
  derives_X (dict_keys s) ->
  dict_get "X" (derive system_size beta s) =
  Some (X_value system_size beta (derive system_size beta s)).
Proof.
  intros H. unfold X_value.
  rewrite !derive_getitem by discriminate.
  unfold derive at 1.
  apply derives_X_heat_capacity with (system_size := system_size) (beta := beta) in H.
  unfold susceptibility.
  apply andb_mem_iff in H. rewrite H, dict_get_set. simpl String.eqb. cbv iota.
  unfold getitem.
  rewrite !heat_capacity_get by (intros [? _]; discriminate). reflexivity.
Qed.

Lemma derives_C_ext (l l' : list string) :
  (forall k, In k l <-> In k l') -> derives_C l <-> derives_C l'.
Proof. intros H. unfold derives_C. now rewrite !H. Qed.

Lemma derives_X_ext (l l' : list string) :
  (forall k, In k l <-> In k l') -> derives_X l <-> derives_X l'.
Proof. intros H. unfold derives_X. now rewrite !H. Qed.

(** Claim C10, as the code has it.  The sample returned for a drawn block maps
    every raw column name to the mean of the drawn rows of that column,
    except that the name "C" holds the derived heat capacity when "E" and
    "E2" are columns, and the name "X" the derived susceptibility when "M"
    and "M2" are columns; its names are the raw column names and, when
    derived, "C" and "X". *)
Theorem sample_events_entries (df : DataFrame Qc) (system_size : Z) (beta : Qc)
    (n : Z) (g : rng) (d : dict fl) (g' : rng) :
  NoDup (columns df) ->
  sample_events df system_size beta n g = Ok (d, g') ->
  exists block,
    sample n df g = Ok (block, g') /\
    (forall j k,
       nth_error (columns df) j = Some k ->
       ~ (k = "C" /\ derives_C (columns df)) ->
       ~ (k = "X" /\ derives_X (columns df)) ->
       dict_get k d = Some (col_mean (column_at j (rows block)))) /\
    (derives_C (columns df) -> dict_get "C" d = Some (C_value system_size beta d)) /\
    (derives_X (columns df) -> dict_get "X" d = Some (X_value system_size beta d)) /\
    (forall k,
       In k (dict_keys d) <->
       In k (columns df) \/
       (k = "C" /\ derives_C (columns df)) \/
       (k = "X" /\ derives_X (columns df))).
Proof.
  intros Hnd H. apply sample_events_inv in H. destruct H as (block & Hs & ->).
  exists block. split; [exact Hs|].
  assert (Hcols : columns block = columns df).
  { apply sample_inv in Hs. destruct Hs as (_ & -> & _). reflexivity. }
  assert (Hkeys : forall k,
             In k (dict_keys (dict_of_list (mean block))) <-> In k (columns df)).
  { intros k. now rewrite dict_of_mean_keys, Hcols. }
  assert (HC := derives_C_ext _ _ Hkeys).
  assert (HX := derives_X_ext _ _ Hkeys).
  split; [|split; [|split]].
  - intros j k Hj HnC HnX.
    rewrite derive_get by tauto.
    apply dict_of_mean_get; now rewrite Hcols.
  - intros Hd. apply derive_C. tauto.
  - intros Hd. apply derive_X. tauto.
  - intros k. rewrite derive_keys, Hkeys. tauto.
Qed.

(** ** Sorting by one column *)

Lemma fl_leb_total (a b : fl) : fl_leb a b = false -> fl_leb b a = true.
Proof.
  destruct a as [x|], b as [y|]; simpl; try congruence.
  intros H. apply Qle_bool_iff. apply Qlt_le_weak. apply Qnot_le_lt.
  intros Hle. apply Qle_bool_iff in Hle. congruence.
Qed.

Lemma fl_le_trans (a b c : fl) : fl_le a b -> fl_le b c -> fl_le a c.
Proof.
  unfold fl_le. destruct a as [x|], b as [y|], c as [z|]; simpl; try congruence.
  rewrite !Qle_bool_iff. apply Qle_trans.
Qed.

Lemma fl_le_Fin (x y : Qc) : fl_le (Fin x) (Fin y) <-> (x <= y)%Qc.
Proof. unfold fl_le. simpl. apply Qle_bool_iff. Qed.

Lemma insert_row_Permutation (j : nat) (r : list fl) (l : list (list fl)) :
  Permutation (insert_row j r l) (r :: l).
Proof.
  induction l as [|h t IH]; simpl; [reflexivity|].
  destruct (fl_leb (cell j r) (cell j h)); [reflexivity|].
  rewrite IH. apply perm_swap.
Qed.

Lemma sort_rows_Permutation (j : nat) (l : list (list fl)) :
  Permutation (sort_rows j l) l.
Proof.
  induction l as [|r l IH]; simpl; [reflexivity|].
  rewrite insert_row_Permutation. now constructor.
Qed.

Lemma insert_row_Sorted (j : nat) (r : list fl) (l : list (list fl)) :
  Sorted (le_at j) l -> Sorted (le_at j) (insert_row j r l).
Proof.
  induction l as [|h t IH]; simpl; intros Hs.
  - repeat constructor.
  - destruct (fl_leb (cell j r) (cell j h)) eqn:E.
    + constructor; [exact Hs|]. constructor. exact E.
    + apply fl_leb_total in E.
      inversion Hs as [|? ? Ht Hhd]; subst.
      constructor; [now apply IH|].
      destruct t as [|h' t']; simpl.
      * constructor. exact E.
      * destruct (fl_leb (cell j r) (cell j h')); constructor; [exact E|].
        now inversion Hhd.
Qed.

Lemma sort_rows_Sorted (j : nat) (l : list (list fl)) :
  Sorted (le_at j) (sort_rows j l).
Proof.
  induction l as [|r l IH]; simpl; [constructor|]. now apply insert_row_Sorted.
Qed.

Lemma sort_rows_StronglySorted (j : nat) (l : list (list fl)) :
  StronglySorted fl_le (map (cell j) (sort_rows j l)).
Proof.
  assert (H : StronglySorted (le_at j) (sort_rows j l)).
  { apply Sorted_StronglySorted; [|apply sort_rows_Sorted].
    intros a b c. apply fl_le_trans. }
  induction H as [|r rs Hrs IH Hall]; simpl; constructor; [exact IH|].
  apply Forall_map. exact Hall.
Qed.

(** ** The names of the estimates *)

Lemma sample_events_keys (df : DataFrame Qc) (system_size : Z) (beta : Qc)
    (n : Z) (g : rng) (d : dict fl) (g' : rng) (k : string) :
  sample_events df system_size beta n g = Ok (d, g') ->
  In k (dict_keys d) -> In k (columns df) \/ k = "C" \/ k = "X".
Proof.
  intros H. apply sample_events_inv in H. destruct H as (block & Hs & ->).
  apply sample_inv in Hs. destruct Hs as (_ & -> & _).
  rewrite derive_keys, dict_of_mean_keys. simpl. tauto.
Qed.

Lemma dict_append_keys (k k' : string) (v : fl) (obs : dict (list fl)) :
  In k (dict_keys (dict_append k' v obs)) <-> In k (dict_keys obs) \/ k = k'.
Proof.
  unfold dict_append. destruct (dict_get k' obs); apply In_keys_set.
Qed.

Lemma collect_keys (k : string) (d : dict fl) :
  forall obs,
    In k (dict_keys (collect d obs)) <-> In k (dict_keys obs) \/ In k (dict_keys d).
Proof.
  unfold collect.
  induction d as [|[k1 v1] d IH]; intros obs; simpl; [tauto|].
  rewrite IH, dict_append_keys. simpl. intuition.
Qed.

Lemma resample_keys (df : DataFrame Qc) (system_size : Z) (beta : Qc) (sb : Z)
    (k : string) :
  forall n obs g obs' g',
    resample n df system_size beta sb obs g = Ok (obs', g') ->
    In k (dict_keys obs') ->
    In k (dict_keys obs) \/ In k (columns df) \/ k = "C" \/ k = "X".
Proof.
  induction n as [|n IH]; intros obs g obs' g'; simpl.
  - intros [= <- <-]. now left.
  - destruct (sample_events df system_size beta sb g) as [[d g1]|e] eqn:E;
      simpl; [|discriminate].
    intros H Hk. destruct (IH _ _ _ _ H Hk) as [Hc|Hc]; [|now right].
    apply collect_keys in Hc. destruct Hc as [Hc|Hc]; [now left|right].
    exact (sample_events_keys _ _ _ _ _ _ _ _ E Hc).
Qed.

Lemma T_not_err (name : string) : "T" <> name ++ "err".
Proof.
  destruct name as [|c [|c' name]]; simpl; discriminate.
Qed.

(** ** The row of one run *)

Lemma index_of_nth_error (k : string) (l : list string) :
  forall j, index_of k l = Some j -> nth_error l j = Some k.
Proof.
  induction l as [|k' l IH]; simpl; intros j; [discriminate|].
  destruct (String.eqb_spec k k') as [->|_].
  - intros [= <-]. reflexivity.
  - destruct (index_of k l) as [i|]; [|discriminate].
    intros [= <-]. now apply IH.
Qed.

Lemma record_cells_cell (cols : list string) (d : dict fl) (k : string) (j : nat) :
  index_of k cols = Some j -> cell j (record_cells cols d) = getitem k d.
Proof.
  intros H. apply index_of_nth_error in H.
  unfold cell, record_cells.
  apply nth_error_nth.
  exact (map_nth_error (fun c => getitem c d) j cols H).
Qed.

(** ** [autocorrelation] *)

Lemma series_at_negative (name : string) (i : Z) (df_raw : DataFrame Qc) :
  i < 0 -> series_at name i df_raw = Raise KeyError.
Proof.
  intros H. unfold series_at.
  destruct (index_of name (columns df_raw)); [|reflexivity].
  destruct (Z.ltb_spec i 0); [reflexivity|lia].
Qed.

Lemma series_at_cases (name : string) (i : Z) (df_raw : DataFrame Qc) :
  series_at name i df_raw = Raise KeyError \/ exists v, series_at name i df_raw = Ok v.
Proof.
  unfold series_at.
  destruct (index_of name (columns df_raw)); [|now left].
  destruct (i <? 0); [now left|].
  destruct (nth_error (rows df_raw) (Z.to_nat i)); [right; eauto|now left].
Qed.

Lemma index_of_In (k : string) (l : list string) :
  In k l -> exists j, index_of k l = Some j.
Proof.
  induction l as [|k' l IH]; simpl; [intros []|].
  destruct (String.eqb_spec k k') as [->|Hne]; [eauto|].
  intros [H|H]; [congruence|].
  destruct (IH H) as [j ->]. eauto.
Qed.

Lemma series_at_Ok (name : string) (i : Z) (df_raw : DataFrame Qc) :
  In name (columns df_raw) ->
  0 <= i < Z.of_nat (nrows df_raw) ->
  exists v, series_at name i df_raw = Ok v.
Proof.
  intros Hn Hi. unfold series_at.
  destruct (index_of_In _ _ Hn) as [j ->].
  destruct (Z.ltb_spec i 0); [lia|].
  destruct (nth_error (rows df_raw) (Z.to_nat i)) eqn:E; [eauto|].
  apply nth_error_None in E. unfold nrows in Hi. lia.
Qed.

Lemma for_each_Ok {S : Type} (body : S -> Z -> result S) (l : list Z) :
  (forall s i, In i l -> exists s', body s i = Ok s') ->
  forall s, exists s', for_each body s l = Ok s'.
Proof.
  induction l as [|i l IH]; intros Hb s; simpl; [eauto|].
  destruct (Hb s i (or_introl eq_refl)) as [s1 ->]. simpl.
  apply IH. intros s0 i0 Hi0. apply Hb. now right.
Qed.

Lemma In_range (lo hi i : Z) : In i (range lo hi) -> lo <= i < hi.
Proof.
  unfold range. intros H. apply in_map_iff in H.
  destruct H as (k & <- & Hk). apply in_seq in Hk. lia.
Qed.

Lemma range_cons (lo hi : Z) :
  lo < hi -> exists l, range lo hi = lo :: l.
Proof.
  intros H. unfold range.
  destruct (Z.to_nat (hi - lo)) as [|n] eqn:E; [lia|].
  simpl. rewrite Z.add_0_r. eauto.
Qed.

Lemma autocorrelation_assertion (ar : Arithmetic) (name : string) (t : Z)
    (df_raw : DataFrame Qc) :
  Z.of_nat (nrows df_raw) <= t ->
  autocorrelation ar name t df_raw = Raise AssertionError.
Proof.
  intros H. unfold autocorrelation.
  destruct (Z.ltb_spec t (Z.of_nat (nrows df_raw))); [lia|reflexivity].
Qed.

Lemma autocorrelation_negative (ar : Arithmetic) (name : string) (t : Z)
    (df_raw : DataFrame Qc) :
  t < 0 -> autocorrelation ar name t df_raw = Raise KeyError.
Proof.
  intros H. unfold autocorrelation.
  destruct (Z.ltb_spec t (Z.of_nat (nrows df_raw))); [|lia]. simpl.
  destruct (range_cons 0 (Z.of_nat (nrows df_raw) - t)) as [l ->]; [lia|].
  simpl. unfold autocorrelation_step at 1.
  destruct (series_at_cases name 0 df_raw) as [->|[v ->]]; [reflexivity|].
  simpl. now rewrite series_at_negative.
Qed.

Lemma autocorrelation_in_range (ar : Arithmetic) (name : string) (t : Z)
    (df_raw : DataFrame Qc) :
  0 <= t < Z.of_nat (nrows df_raw) ->
  In name (columns df_raw) ->
  exists chi, autocorrelation ar name t df_raw = Ok chi.
Proof.
  intros Ht Hn. unfold autocorrelation.
  destruct (Z.ltb_spec t (Z.of_nat (nrows df_raw))); [|lia]. simpl.
  destruct (for_each_Ok (autocorrelation_step ar name t df_raw)
                        (range 0 (Z.of_nat (nrows df_raw) - t))) with (s := (0, 0, 0)%Qc)
    as [[[s1 s2] s3] ->].
  - intros [[s1 s2] s3] i Hi. apply In_range in Hi.
    unfold autocorrelation_step.
    destruct (series_at_Ok name i df_raw Hn) as [a ->]; [lia|].
    destruct (series_at_Ok name (i + t) df_raw Hn) as [b ->]; [lia|].
    simpl. eauto.
  - simpl. eauto.
Qed.

(** Claim C4, as the code has it.  Every lag outside [0 <= lag < len(series)]
    makes the call fail: a lag of [len(series)] or more fails the assertion
    at the head of the function, a negative lag fails with [KeyError] at the
    first lookup in the series.  A lag inside the range, for a column the
    frame has, gives a value. *)
Theorem autocorrelation_lag_range (ar : Arithmetic) (name : string) (t : Z)
    (df_raw : DataFrame Qc) :
  (Z.of_nat (nrows df_raw) <= t ->
   autocorrelation ar name t df_raw = Raise AssertionError) /\
  (t < 0 -> autocorrelation ar name t df_raw = Raise KeyError) /\
  (0 <= t < Z.of_nat (nrows df_raw) -> In name (columns df_raw) ->
   exists chi, autocorrelation ar name t df_raw = Ok chi).
Proof.
  split; [apply autocorrelation_assertion|].
  split; [apply autocorrelation_negative|apply autocorrelation_in_range].
Qed.

(** ** Arithmetic of counts *)

Lemma Qc_of_Z_plus (a b : Z) : Qc_of_Z (a + b) = (Qc_of_Z a + Qc_of_Z b)%Qc.
Proof.
  unfold Qc_of_Z, Qcplus. apply Q2Qc_eq_iff.
  unfold Q2Qc, this. rewrite !Qred_correct, inject_Z_plus. apply Qeq_refl.
Qed.

Lemma Qc_of_nat_S (n : nat) : Qc_of_nat (S n) = (Qc_of_nat n + 1)%Qc.
Proof.
  unfold Qc_of_nat. rewrite Nat2Z.inj_succ, <- Z.add_1_r. apply Qc_of_Z_plus.
Qed.

Lemma Qc_of_nat_0 : Qc_of_nat 0 = 0%Qc.
Proof. apply Qc_is_canon. reflexivity. Qed.

Lemma Qc_of_nat_nonneg (n : nat) : (0 <= Qc_of_nat n)%Qc.
Proof.
  unfold Qcle, Qc_of_nat, Qc_of_Z, Q2Qc, this. rewrite !Qred_correct.
  unfold Qle. simpl. lia.
Qed.

Lemma Qc_of_nat_neq_0 (n : nat) : n <> O -> Qc_of_nat n <> 0%Qc.
Proof.
  intros Hn H. unfold Qc_of_nat, Qc_of_Z in H.
  apply Q2Qc_eq_iff in H. unfold Qeq in H. simpl in H. lia.
Qed.

Lemma Qc_of_nat_pos (n : nat) : n <> O -> (0 < Qc_of_nat n)%Qc.
Proof.
  intros Hn. destruct (Qcle_lt_or_eq _ _ (Qc_of_nat_nonneg n)) as [H|H]; [exact H|].
  symmetry in H. now apply Qc_of_nat_neq_0 in H.
Qed.

Lemma index_of_None (k : string) (l : list string) :
  ~ In k l -> index_of k l = None.
Proof.
  induction l as [|k' l IH]; simpl; intros H; [reflexivity|].
  destruct (String.eqb_spec k k') as [->|_]; [exfalso; apply H; now left|].
  rewrite IH; [reflexivity|]. intros Hin. apply H. now right.
Qed.

Lemma series_at_missing (name : string) (i : Z) (df_raw : DataFrame Qc) :
  ~ In name (columns df_raw) -> series_at name i df_raw = Raise KeyError.
Proof.
  intros H. unfold series_at. now rewrite index_of_None.
Qed.

(** Property X6.  For a column the frame does not have, every lag below the
    length of the frame, negative ones included, ends in [KeyError]. *)
Theorem autocorrelation_missing_column (ar : Arithmetic) (name : string) (t : Z)
    (df_raw : DataFrame Qc) :
  ~ In name (columns df_raw) ->
  t < Z.of_nat (nrows df_raw) ->
  autocorrelation ar name t df_raw = Raise KeyError.
Proof.
  intros Hm Ht. unfold autocorrelation.
  destruct (Z.ltb_spec t (Z.of_nat (nrows df_raw))); [|lia]. simpl.
  destruct (range_cons 0 (Z.of_nat (nrows df_raw) - t)) as [l ->]; [lia|].
  simpl. unfold autocorrelation_step at 1.
  now rewrite series_at_missing.
Qed.

(** ** The resampling loop, observable by observable *)

Lemma sample_events_keys_iff (df : DataFrame Qc) (system_size : Z) (beta : Qc)
    (n : Z) (g : rng) (d : dict fl) (g' : rng) (k : string) :
  sample_events df system_size beta n g = Ok (d, g') ->
  In k (dict_keys d) <-> observable (columns df) k.
Proof.
  intros H. apply sample_events_inv in H. destruct H as (block & Hs & ->).
  apply sample_inv in Hs. destruct Hs as (_ & -> & _).
  rewrite derive_keys. unfold observable.
  assert (Hk : forall k', In k' (dict_keys (dict_of_list (mean (take
                 (fst (choice (Z.to_nat n) (seq 0 (nrows df)) g)) df)))) <->
               In k' (columns df)) by (intros k'; now rewrite dict_of_mean_keys).
  rewrite (derives_C_ext _ _ Hk), (derives_X_ext _ _ Hk), Hk. reflexivity.
Qed.

Lemma dict_get_append (k k' : string) (v : fl) (obs : dict (list fl)) :
  dict_get k (dict_append k' v obs) =
  if String.eqb k k' then Some (values_of k' obs ++ [v])%list else dict_get k obs.
Proof.
  unfold dict_append, values_of.
  destruct (dict_get k' obs); rewrite dict_get_set; reflexivity.
Qed.

(** One pass of [for name, val in d.items(): observables[name].append(val)]. *)
Lemma collect_get (k : string) (d : dict fl) :
  forall obs,
    NoDup (dict_keys d) ->
    dict_get k (collect d obs) =
    match dict_get k d with
    | Some v => Some (values_of k obs ++ [v])%list
    | None => dict_get k obs
    end.
Proof.
  unfold collect.
  induction d as [|[k1 v1] d IH]; intros obs Hnd; simpl; [reflexivity|].
  inversion Hnd as [|? ? Hk Hnd']; subst.
  rewrite IH by exact Hnd'.
  destruct (String.eqb_spec k k1) as [->|Hne].
  - assert (Hd : dict_get k1 d = None) by now apply dict_get_None.
    rewrite Hd, dict_get_append, String.eqb_refl. reflexivity.
  - unfold values_of. rewrite dict_get_append.
    destruct (String.eqb_spec k k1); [contradiction|]. reflexivity.
Qed.

Lemma dict_get_Some_In_keys {V : Type} (k : string) (d : dict V) :
  In k (dict_keys d) -> exists v, dict_get k d = Some v.
Proof.
  intros H. destruct (dict_get k d) as [v|] eqn:E; [eauto|].
  apply dict_get_None in E. contradiction.
Qed.

Lemma dict_append_NoDup (k : string) (v : fl) (obs : dict (list fl)) :
  NoDup (dict_keys obs) -> NoDup (dict_keys (dict_append k v obs)).
Proof.
  unfold dict_append. destruct (dict_get k obs); apply dict_set_NoDup.
Qed.

Lemma collect_NoDup (d : dict fl) :
  forall obs, NoDup (dict_keys obs) -> NoDup (dict_keys (collect d obs)).
Proof.
  unfold collect. induction d as [|[k v] d IH]; intros obs H; simpl; [exact H|].
  apply IH. now apply dict_append_NoDup.
Qed.

Lemma resample_NoDup (df : DataFrame Qc) (system_size : Z) (beta : Qc) (sb : Z) :
  forall n obs g obs' g',
    resample n df system_size beta sb obs g = Ok (obs', g') ->
    NoDup (dict_keys obs) -> NoDup (dict_keys obs').
Proof.
  induction n as [|n IH]; intros obs g obs' g'; simpl.
  - now intros [= <- <-].
  - destruct (sample_events df system_size beta sb g) as [[d g1]|e]; simpl; [|discriminate].
    intros H Hnd. apply (IH _ _ _ _ H). now apply collect_NoDup.
Qed.

(** After [n] passes every observable has gained [n] block values, in the
    order of the passes, and no other name has appeared. *)
Lemma resample_get (df : DataFrame Qc) (system_size : Z) (beta : Qc) (sb : Z)
    (k : string) :
  forall n obs g obs' g',
    resample n df system_size beta sb obs g = Ok (obs', g') ->
    (observable (columns df) k ->
     exists vs,
       length vs = n /\
       Forall (block_value df system_size beta sb k) vs /\
       values_of k obs' = (values_of k obs ++ vs)%list /\
       (dict_get k obs <> None \/ n <> O ->
        dict_get k obs' = Some (values_of k obs ++ vs)%list)) /\
    (~ observable (columns df) k -> dict_get k obs' = dict_get k obs).
Proof.
  induction n as [|n IH]; intros obs g obs' g'; simpl.
  - intros [= <- <-]. split; [|reflexivity].
    intros _. exists []. rewrite app_nil_r. repeat split; [constructor|].
    intros [H|H]; [|congruence]. unfold values_of.
    destruct (dict_get k obs); congruence.
  - destruct (sample_events df system_size beta sb g) as [[d g1]|e] eqn:E;
      simpl; [|discriminate].
    intros H. destruct (IH _ _ _ _ H) as [IHo IHn].
    assert (Hnd := sample_events_NoDup _ _ _ _ _ _ _ E).
    assert (Hget := collect_get k d obs Hnd).
    split.
    + intros Hobs. destruct (IHo Hobs) as (vs & Hlen & Hall & Hvals & Hsome).
      assert (Hk : In k (dict_keys d)) by now apply (sample_events_keys_iff _ _ _ _ _ _ _ k E).
      destruct (dict_get_Some_In_keys k d Hk) as [v Hv].
      rewrite Hv in Hget.
      assert (Hv1 : values_of k (collect d obs) = (values_of k obs ++ [v])%list).
      { unfold values_of at 1. now rewrite Hget. }
      exists (v :: vs). rewrite Hv1, <- app_assoc in Hvals, Hsome. simpl in Hvals, Hsome.
      repeat split.
      * simpl. now rewrite Hlen.
      * constructor; [|exact Hall]. now exists g, d, g1.
      * exact Hvals.
      * intros _. apply Hsome. left. rewrite Hget. discriminate.
    + intros Hobs. rewrite IHn by exact Hobs. rewrite Hget.
      destruct (dict_get k d) as [v|] eqn:Hv; [|reflexivity].
      exfalso. apply Hobs. apply (sample_events_keys_iff _ _ _ _ _ _ _ k E).
      apply dict_get_In in Hv. apply (in_map fst) in Hv. exact Hv.
Qed.

Lemma observable_dec (cols : list string) (k : string) :
  observable cols k \/ ~ observable cols k.
Proof.
  unfold observable, derives_C, derives_X.
  destruct (in_dec string_dec k cols); [tauto|].
  destruct (string_dec k "C"), (string_dec k "X"),
           (in_dec string_dec "E" cols), (in_dec string_dec "E2" cols),
           (in_dec string_dec "M" cols), (in_dec string_dec "M2" cols); tauto.
Qed.

(** ** Names ending in "err" *)

Lemma string_length_append (a b : string) :
  String.length (a ++ b) = (String.length a + String.length b)%nat.
Proof. induction a as [|c a IH]; simpl; [reflexivity|now rewrite IH]. Qed.

Lemma append_inj_r (s a b : string) : a ++ s = b ++ s -> a = b.
Proof.
  revert b. induction a as [|c a IH]; intros [|c' b] H; simpl in H.
  - reflexivity.
  - apply (f_equal String.length) in H. simpl in H.
    rewrite string_length_append in H. lia.
  - apply (f_equal String.length) in H. simpl in H.
    rewrite string_length_append in H. lia.
  - injection H as -> H. f_equal. now apply IH.
Qed.

Lemma In_dict_get {V : Type} (k : string) (v : V) (d : dict V) :
  NoDup (dict_keys d) -> In (k, v) d -> dict_get k d = Some v.
Proof.
  intros Hnd Hin.
  destruct (dict_get_Some_In_keys k d) as [v' Hv'].
  { apply (in_map fst) in Hin. exact Hin. }
  rewrite Hv'. f_equal. apply dict_get_In in Hv'.
  exact (NoDup_keys_functional d k v' v Hnd Hv' Hin).
Qed.

(** ** Averages stay within the range of what is averaged *)

Lemma Qc_sum_bounds (lo hi : Qc) (xs : list Qc) :
  (forall x, In x xs -> (lo <= x)%Qc /\ (x <= hi)%Qc) ->
  (Qc_of_nat (length xs) * lo <= Qc_sum xs)%Qc /\
  (Qc_sum xs <= Qc_of_nat (length xs) * hi)%Qc.
Proof.
  induction xs as [|x xs IH]; intros H; simpl.
  - rewrite Qc_of_nat_0, !Qcmult_0_l. split; apply Qcle_refl.
  - destruct (H x (or_introl eq_refl)) as [Hlo Hhi].
    destruct IH as [IHlo IHhi]; [intros y Hy; apply H; now right|].
    rewrite Qc_of_nat_S. split.
    + replace ((Qc_of_nat (length xs) + 1) * lo)%Qc
        with (lo + Qc_of_nat (length xs) * lo)%Qc by ring.
      now apply Qcplus_le_compat.
    + replace ((Qc_of_nat (length xs) + 1) * hi)%Qc
        with (hi + Qc_of_nat (length xs) * hi)%Qc by ring.
      now apply Qcplus_le_compat.
Qed.

Lemma Qc_mean_bounds (lo hi : Qc) (xs : list Qc) :
  xs <> [] ->
  (forall x, In x xs -> (lo <= x)%Qc /\ (x <= hi)%Qc) ->
  (lo <= Qc_sum xs / Qc_of_nat (length xs))%Qc /\
  (Qc_sum xs / Qc_of_nat (length xs) <= hi)%Qc.
Proof.
  intros Hne H. destruct (Qc_sum_bounds lo hi xs H) as [Hlo Hhi].
  assert (Hlen : length xs <> O) by (destruct xs; [congruence|discriminate]).
  assert (Hpos := Qc_of_nat_pos _ Hlen).
  assert (Hnz := Qc_of_nat_neq_0 _ Hlen).
  set (z := Qc_of_nat (length xs)) in *.
  split; apply (Qcmult_lt_0_le_reg_r _ _ z Hpos).
  - replace (Qc_sum xs / z * z)%Qc with (Qc_sum xs) by (field; exact Hnz).
    now rewrite Qcmult_comm.
  - replace (Qc_sum xs / z * z)%Qc with (Qc_sum xs) by (field; exact Hnz).
    now rewrite (Qcmult_comm hi z).
Qed.

Lemma col_mean_within (lo hi : Qc) (xs : list Qc) :
  xs <> [] ->
  (forall x, In x xs -> (lo <= x)%Qc /\ (x <= hi)%Qc) ->
  within lo hi (col_mean xs).
Proof.
  intros Hne H. unfold col_mean, fl_div_nat.
  destruct (length xs) as [|n] eqn:E; [destruct xs; [congruence|discriminate]|].
  rewrite <- E. eexists. split; [reflexivity|]. now apply Qc_mean_bounds.
Qed.

Lemma fold_left_fl_add_Fin (qs : list Qc) :
  forall a, fold_left fl_add (map Fin qs) (Fin a) = Fin (a + Qc_sum qs)%Qc.
Proof.
  induction qs as [|q qs IH]; intros a; simpl.
  - now rewrite Qcplus_0_r.
  - rewrite IH. f_equal. ring.
Qed.

Lemma within_all_Fin (lo hi : Qc) (vals : list fl) :
  Forall (within lo hi) vals ->
  exists qs, vals = map Fin qs /\
             forall q, In q qs -> (lo <= q)%Qc /\ (q <= hi)%Qc.
Proof.
  induction 1 as [|v vals (q & -> & Hq) _ (qs & -> & Hqs)].
  - exists []. split; [reflexivity|intros q []].
  - exists (q :: qs). split; [reflexivity|].
    intros q' [<-|Hin]; [exact Hq|now apply Hqs].
Qed.

Lemma np_mean_within (lo hi : Qc) (vals : list fl) :
  vals <> [] -> Forall (within lo hi) vals -> within lo hi (np_mean vals).
Proof.
  intros Hne H. destruct (within_all_Fin lo hi vals H) as (qs & -> & Hqs).
  unfold np_mean, fl_sum. rewrite fold_left_fl_add_Fin, length_map, Qcplus_0_l.
  assert (Hq : qs <> []) by (intros ->; now apply Hne).
  unfold fl_div_nat.
  destruct (length qs) as [|n] eqn:E; [destruct qs; [congruence|discriminate]|].
  rewrite <- E. eexists. split; [reflexivity|]. now apply Qc_mean_bounds.
Qed.

(** The value of a raw column in a block sample of at least one row lies
    within the range of that column. *)
Lemma block_value_within (df : DataFrame Qc) (system_size : Z) (beta : Qc) (sb : Z)
    (j : nat) (k : string) (lo hi : Qc) (v : fl) :
  NoDup (columns df) ->
  nth_error (columns df) j = Some k ->
  ~ (k = "C" /\ derives_C (columns df)) ->
  ~ (k = "X" /\ derives_X (columns df)) ->
  (forall r, In r (rows df) -> (lo <= nth j r 0)%Qc /\ (nth j r 0 <= hi)%Qc) ->
  1 <= sb ->
  block_value df system_size beta sb k v ->
  within lo hi v.
Proof.
  intros Hnd Hj HC HX Hrows Hsb (g & d & g' & Hs & Hget).
  apply sample_events_inv in Hs. destruct Hs as (block & Hs & ->).
  apply sample_inv in Hs. destruct Hs as (Hn & -> & _).
  set (idx := fst (choice (Z.to_nat sb) (seq 0 (nrows df)) g)) in *.
  assert (Hkeys : forall k', In k' (dict_keys (dict_of_list (mean (take idx df)))) <->
                            In k' (columns df)) by (intros k'; now rewrite dict_of_mean_keys).
  rewrite derive_get in Hget
    by (rewrite ?(derives_C_ext _ _ Hkeys), ?(derives_X_ext _ _ Hkeys); assumption).
  rewrite (dict_of_mean_get (take idx df) j k Hnd Hj) in Hget.
  injection Hget as <-.
  assert (Hlen : length idx = Z.to_nat sb).
  { apply choice_length. rewrite length_seq. lia. }
  apply col_mean_within.
  - unfold column_at, take. simpl. intros Hnil.
    apply map_eq_nil in Hnil. apply map_eq_nil in Hnil.
    rewrite Hnil in Hlen. simpl in Hlen. lia.
  - intros x Hx. unfold column_at, take in Hx. simpl in Hx.
    apply in_map_iff in Hx. destruct Hx as (r & <- & Hr).
    apply in_map_iff in Hr. destruct Hr as (i & <- & Hi).
    apply Hrows. apply nth_In.
    apply (choice_incl (Z.to_nat sb) (seq 0 (nrows df)) g) in Hi.
    apply in_seq in Hi. unfold nrows in Hi. lia.
Qed.

(** ** The thermalization cut *)

Lemma iloc_from_nonneg {A : Type} (t : Z) (df : DataFrame A) :
  0 <= t -> iloc_from t df = mkDF (columns df) (skipn (Z.to_nat t) (rows df)).
Proof.
  intros Ht. unfold iloc_from, slice_start, nrows. f_equal.
  destruct (Z.ltb_spec t 0); [lia|].
  destruct (Z.le_gt_cases t (Z.of_nat (length (rows df)))) as [Hle|Hgt].
  - now rewrite Z.min_l by lia.
  - rewrite Z.min_r by lia. rewrite Nat2Z.id.
    rewrite skipn_all. symmetry. apply skipn_all2. lia.
Qed.

Lemma iloc_from_0 {A : Type} (df : DataFrame A) : iloc_from 0 df = df.
Proof. rewrite iloc_from_nonneg by lia. destruct df as [cols rs]. reflexivity. Qed.

Lemma iloc_from_negative {A : Type} (t : Z) (df : DataFrame A) :
  t < 0 ->
  iloc_from t df =
  mkDF (columns df) (skipn (length (rows df) - Z.to_nat (- t)) (rows df)).
Proof.
  intros Ht. unfold iloc_from, slice_start, nrows. f_equal.
  destruct (Z.ltb_spec t 0); [|lia]. f_equal. lia.
Qed.

Lemma nrows_iloc_from_all {A : Type} (t : Z) (df : DataFrame A) :
  Z.of_nat (nrows df) <= t -> nrows (iloc_from t df) = O.
Proof.
  intros Ht. rewrite iloc_from_nonneg by lia. unfold nrows. simpl.
  rewrite skipn_all2; [reflexivity|]. unfold nrows in Ht. lia.
Qed.

(** Property X13.  [sample_events] fails exactly when the block size is
    negative or larger than the number of rows of the frame, and then with
    the [ValueError] of [DataFrame.sample]; a block size of 0 is accepted. *)
Theorem sample_events_fails_iff (df : DataFrame Qc) (system_size : Z) (beta : Qc)
    (sb : Z) (g : rng) :
  (raises (sample_events df system_size beta sb g) <->
   sb < 0 \/ Z.of_nat (nrows df) < sb) /\
  (forall e, sample_events df system_size beta sb g = Raise e -> e = ValueError).
Proof.
  assert (Hcases : (sb < 0 \/ Z.of_nat (nrows df) < sb) \/ 0 <= sb <= Z.of_nat (nrows df))
    by lia.
  destruct Hcases as [Hbad|Hgood].
  - rewrite (sample_events_Raise df system_size beta sb g Hbad). split.
    + split; [intros _; exact Hbad|intros _; now exists ValueError].
    + intros e [= <-]. reflexivity.
  - destruct (sample_events_Ok df system_size beta sb g Hgood) as (d & g' & ->). split.
    + split; [intros [e He]; discriminate|lia].
    + intros e He. discriminate.
Qed.

(** ** The columns of the table *)

Lemma dict_update_keys_prefix {V : Type} (l : list (string * V)) :
  forall d, exists tail, dict_keys (dict_update d l) = (dict_keys d ++ tail)%list.
Proof.
  unfold dict_update.
  induction l as [|[k v] l IH]; intros d; simpl.
  - exists []. now rewrite app_nil_r.
  - destruct (IH (dict_set k v d)) as [tail Ht]. rewrite Ht, dict_keys_set.
    destruct (dict_mem k d); [now exists tail|].
    exists ([k] ++ tail)%list. now rewrite app_assoc.
Qed.

Lemma add_columns_prefix (ks : list string) :
  forall cols, exists tail, fold_left add_column ks cols = (cols ++ tail)%list.
Proof.
  induction ks as [|k ks IH]; intros cols; simpl.
  - exists []. now rewrite app_nil_r.
  - destruct (IH (add_column cols k)) as [tail Ht]. rewrite Ht.
    unfold add_column. destruct (existsb (String.eqb k) cols); [now exists tail|].
    exists ([k] ++ tail)%list. now rewrite app_assoc.
Qed.

Lemma frame_columns_prefix (rows_list : list (dict fl)) :
  forall cols,
  exists tail,
    fold_left (fun cols d => fold_left add_column (dict_keys d) cols) rows_list cols =
    (cols ++ tail)%list.
Proof.
  induction rows_list as [|d rows_list IH]; intros cols; simpl.
  - exists []. now rewrite app_nil_r.
  - destruct (add_columns_prefix (dict_keys d) cols) as [t1 H1]. rewrite H1.
    destruct (IH (cols ++ t1)%list) as [t2 H2]. rewrite H2.
    exists (t1 ++ t2)%list. now rewrite app_assoc.
Qed.

(** A first record that starts with "K" and "T" makes them the first two
    columns of the frame. *)
Lemma frame_columns_K_T (d : dict fl) (rest : list (dict fl)) (tail : list string) :
  dict_keys d = "K" :: "T" :: tail ->
  exists tail', frame_columns (d :: rest) = "K" :: "T" :: tail'.
Proof.
  intros Hd.
  change (frame_columns (d :: rest))
    with (fold_left (fun cols d => fold_left add_column (dict_keys d) cols) rest
                    (fold_left add_column (dict_keys d) [])).
  rewrite Hd.
  change (fold_left add_column ("K" :: "T" :: tail) [])
    with (fold_left add_column tail ["K"; "T"]).
  destruct (add_columns_prefix tail ["K"; "T"]) as [t1 H1]. rewrite H1.
  destruct (frame_columns_prefix rest (["K"; "T"] ++ t1)%list) as [t2 H2]. rewrite H2.
  exists (t1 ++ t2)%list. now rewrite <- app_assoc.
Qed.

(** ** Strings *)

Lemma append_assoc (a b c : string) : (a ++ b) ++ c = a ++ (b ++ c).
Proof. induction a as [|x a IH]; simpl; [reflexivity|now rewrite IH]. Qed.

Lemma append_nil_r (a : string) : a ++ "" = a.
Proof. induction a as [|x a IH]; simpl; [reflexivity|now rewrite IH]. Qed.

Lemma strip_prefix_spec (p : string) :
  forall s r, strip_prefix p s = Some r <-> s = p ++ r.
Proof.
  induction p as [|c p IH]; intros s r; simpl.
  - destruct s; split; congruence.
  - destruct s as [|c' s].
    + split; discriminate.
    + destruct (Ascii.eqb_spec c c') as [->|Hne].
      * rewrite IH. split; [now intros ->|now intros [= ->]].
      * split; [discriminate|]. intros [= H _]. now elim Hne.
Qed.

Lemma strip_prefix_app (p r : string) : strip_prefix p (p ++ r) = Some r.
Proof. now apply strip_prefix_spec. Qed.

Lemma contains_spec (sub : string) :
  forall s, contains sub s = true <-> exists a b, s = a ++ sub ++ b.
Proof.
  induction s as [|c s IH].
  - simpl. destruct (strip_prefix sub "") as [r|] eqn:E.
    + split; [intros _|reflexivity]. apply strip_prefix_spec in E. now exists "", r.
    + split; [discriminate|]. intros (a & b & H).
      destruct a; simpl in H; [|discriminate].
      apply strip_prefix_spec in H. congruence.
  - simpl contains. destruct (strip_prefix sub (String c s)) as [r|] eqn:E.
    + split; [intros _|reflexivity]. apply strip_prefix_spec in E. now exists "", r.
    + rewrite IH. split.
      * intros (a & b & ->). now exists (String c a), b.
      * intros (a & b & H). destruct a as [|c' a]; simpl in H.
        -- apply strip_prefix_spec in H. congruence.
        -- injection H as _ ->. now exists a, b.
Qed.

Lemma before_newline_prefix (s : string) : exists rem, s = before_newline s ++ rem.
Proof.
  induction s as [|c s [rem IH]]; simpl.
  - now exists "".
  - destruct (Ascii.eqb c "010"); [now exists (String c s)|].
    exists rem. simpl. now rewrite <- IH.
Qed.

Lemma before_newline_idempotent (s : string) : newline_free (before_newline s).
Proof.
  unfold newline_free. induction s as [|c s IH]; simpl; [reflexivity|].
  destruct (Ascii.eqb c "010") eqn:E; [reflexivity|].
  simpl. now rewrite E, IH.
Qed.

Lemma newline_free_app_l (a b : string) : newline_free (a ++ b) -> newline_free a.
Proof.
  unfold newline_free. induction a as [|c a IH]; simpl; [reflexivity|].
  destruct (Ascii.eqb c "010"); [discriminate|].
  intros [= H]. f_equal. now apply IH.
Qed.

Lemma before_newline_app (a b : string) :
  newline_free a -> before_newline (a ++ b) = a ++ before_newline b.
Proof.
  unfold newline_free. induction a as [|c a IH]; simpl; [reflexivity|].
  destruct (Ascii.eqb c "010"); [discriminate|].
  intros [= H]. f_equal. now apply IH.
Qed.

(** Property X17.  A file name is taken as a data file exactly when it is
    "cold", then any characters other than a newline, then ".csv", then
    anything: the pattern is anchored at the start of the name only. *)
Theorem is_cold_csv_iff (f : string) :
  is_cold_csv f = true <->
  exists mid tail, f = "cold" ++ mid ++ ".csv" ++ tail /\ newline_free mid.
Proof.
  unfold is_cold_csv. split.
  - destruct (strip_prefix "cold" f) as [rest|] eqn:E; [|discriminate].
    apply strip_prefix_spec in E. intros Hc.
    apply contains_spec in Hc. destruct Hc as (a & b & Hab).
    destruct (before_newline_prefix rest) as [rem Hrem].
    exists a, (b ++ rem). split.
    + rewrite E, Hrem, Hab. now rewrite !append_assoc.
    + apply (newline_free_app_l a (".csv" ++ b)). rewrite <- Hab.
      apply before_newline_idempotent.
  - intros (mid & tail & -> & Hmid).
    rewrite strip_prefix_app, (before_newline_app mid _ Hmid).
    rewrite (before_newline_app ".csv" tail eq_refl).
    apply contains_spec. now exists mid, (before_newline tail).
Qed.

(** ** Numbers in names and in the header *)

Lemma span_digits_app (ds post : string) :
  all_digits ds = true -> starts_with_digit post = false ->
  span_digits (ds ++ post) = (ds, post).
Proof.
  intros Hd Hp. induction ds as [|c ds IH]; simpl in *.
  - destruct post as [|c post]; simpl in *; [reflexivity|now rewrite Hp].
  - apply andb_prop in Hd. destruct Hd as [Hc Hd]. now rewrite Hc, IH.
Qed.

Lemma findall_from_skip (p a : string) :
  forall s, findall_from p (String.length a) (a ++ s) = findall_from p 0 s.
Proof.
  induction a as [|c a IH]; intros s; simpl; [|apply IH].
  destruct s; reflexivity.
Qed.

(** Where the prefix and a run of digits begin the text, the run is the first
    result and the scan goes on behind it. *)
Lemma findall_match (p ds post : string) :
  ds <> "" -> all_digits ds = true -> starts_with_digit post = false ->
  findall p (p ++ ds ++ post) = ds :: findall p post.
Proof.
  intros Hne Hd Hp. unfold findall.
  destruct (p ++ ds) as [|c a] eqn:E.
  { destruct p; [simpl in E; congruence|discriminate]. }
  assert (Hlen : String.length a = (String.length p + String.length ds - 1)%nat).
  { apply (f_equal String.length) in E. rewrite string_length_append in E.
    simpl in E. lia. }
  assert (Htext : p ++ ds ++ post = String c (a ++ post)).
  { rewrite <- append_assoc, E. reflexivity. }
  rewrite Htext. simpl findall_from. rewrite <- Htext.
  rewrite strip_prefix_app, (span_digits_app ds post Hd Hp). simpl fst.
  destruct ds as [|d ds]; [congruence|].
  simpl String.length in *. rewrite <- Hlen. now rewrite findall_from_skip.
Qed.

Lemma findall_no_digit_head (c : ascii) (s : string) :
  is_digit c = false -> findall "" (String c s) = findall "" s.
Proof.
  intros Hc. unfold findall. simpl. now rewrite Hc.
Qed.

Lemma findall_no_digits (s : string) : no_digits s = true -> findall "" s = [].
Proof.
  induction s as [|c s IH]; simpl; [reflexivity|].
  intros H. apply andb_prop in H. destruct H as [Hc Hs].
  apply negb_true_iff in Hc. rewrite findall_no_digit_head by exact Hc. now apply IH.
Qed.

Lemma findall_no_digits_app (pre s : string) :
  no_digits pre = true -> findall "" (pre ++ s) = findall "" s.
Proof.
  induction pre as [|c pre IH]; simpl; [reflexivity|].
  intros H. apply andb_prop in H. destruct H as [Hc Hs].
  apply negb_true_iff in Hc. rewrite findall_no_digit_head by exact Hc. now apply IH.
Qed.

(** A prefix that starts with a letter is not found in a run of digits. *)
Lemma findall_in_digits (c : ascii) (p s : string) :
  is_digit c = false -> all_digits s = true -> findall (String c p) s = [].
Proof.
  intros Hc. unfold findall. induction s as [|d s IH]; simpl; [reflexivity|].
  intros H. apply andb_prop in H. destruct H as [Hd Hs].
  destruct (Ascii.eqb_spec c d) as [->|_]; [congruence|]. now apply IH.
Qed.

Lemma string_of_uint_all_digits (d : Decimal.uint) :
  all_digits (NilEmpty.string_of_uint d) = true.
Proof. induction d; simpl; auto. Qed.

Lemma int_acc_string_of_uint (d : Decimal.uint) :
  forall acc, int_acc acc (NilEmpty.string_of_uint d) = Nat.of_uint_acc d acc.
Proof.
  induction d; intros acc; simpl Nat.of_uint_acc; simpl NilEmpty.string_of_uint;
    [reflexivity|..]; cbn [int_acc]; rewrite IHd; f_equal;
    rewrite Nat.tail_mul_spec; cbn [nat_of_ascii]; simpl; lia.
Qed.

Lemma decimal_all_digits (n : nat) : all_digits (decimal n) = true.
Proof. apply string_of_uint_all_digits. Qed.

Lemma int_decimal (n : nat) : int (decimal n) = n.
Proof.
  unfold int, decimal. rewrite int_acc_string_of_uint.
  apply DecimalNat.Unsigned.of_to.
Qed.

Lemma decimal_nonempty (n : nat) : decimal n <> "".
Proof.
  unfold decimal. intros H.
  destruct (Nat.to_uint n) as [| | | | | | | | | |] eqn:E; try discriminate.
  assert (Hn := DecimalNat.Unsigned.of_to n). rewrite E in Hn. simpl in Hn. subst n.
  discriminate E.
Qed.

Lemma all_digits_newline_free (s : string) : all_digits s = true -> newline_free s.
Proof.
  unfold newline_free. induction s as [|c s IH]; simpl; [reflexivity|].
  intros H. apply andb_prop in H. destruct H as [Hc Hs].
  destruct (Ascii.eqb_spec c "010") as [->|_]; [discriminate|].
  now rewrite IH.
Qed.

Lemma newline_free_app (a b : string) :
  newline_free a -> newline_free b -> newline_free (a ++ b).
Proof.
  intros Ha Hb. unfold newline_free. rewrite (before_newline_app a b Ha). now rewrite Hb.
Qed.

Lemma no_digits_app (a b : string) :
  no_digits a = true -> no_digits b = true -> no_digits (a ++ b) = true.
Proof.
  intros Ha Hb. induction a as [|c a IH]; simpl in *; [exact Hb|].
  apply andb_prop in Ha. destruct Ha as [Hc Ha]. now rewrite Hc, IH.
Qed.

Lemma is_cold_csv_app (mid tail : string) :
  newline_free mid -> is_cold_csv ("cold" ++ mid ++ ".csv" ++ tail) = true.
Proof.
  intros Hmid. unfold is_cold_csv.
  rewrite strip_prefix_app, (before_newline_app mid _ Hmid).
  rewrite (before_newline_app ".csv" tail eq_refl).
  apply contains_spec. now exists mid, (before_newline tail).
Qed.

Lemma findall_number (p : string) (n : nat) (post : string) :
  starts_with_digit post = false ->
  findall p (p ++ decimal n ++ post) = decimal n :: findall p post.
Proof.
  intros Hp. apply findall_match; [apply decimal_nonempty|apply decimal_all_digits|exact Hp].
Qed.

Lemma findall_skip_char (c0 c : ascii) (p s : string) :
  Ascii.eqb c0 c = false ->
  findall (String c0 p) (String c s) = findall (String c0 p) s.
Proof. intros H. unfold findall. simpl. now rewrite H. Qed.

(** Property X18.  A file named "cold", then characters without digit or
    newline, then a number in decimal notation, then ".csv" is a data file,
    and the index looked up in the metadata for it is that number. *)
Theorem cold_files_index (mid : string) (n : nat) (df : DataFrame Qc) :
  no_digits mid = true ->
  newline_free mid ->
  cold_files [("cold" ++ mid ++ decimal n ++ ".csv", df)] = [mkFile [n] df].
Proof.
  intros Hd Hn. unfold cold_files. cbn [filter fst].
  assert (Hcold : is_cold_csv ("cold" ++ mid ++ decimal n ++ ".csv") = true).
  { replace ("cold" ++ mid ++ decimal n ++ ".csv")
      with ("cold" ++ (mid ++ decimal n) ++ ".csv" ++ "")
      by (now rewrite (append_assoc mid)).
    apply is_cold_csv_app. apply newline_free_app; [exact Hn|].
    apply all_digits_newline_free, decimal_all_digits. }
  rewrite Hcold. cbn [map fst snd]. f_equal. f_equal.
  replace ("cold" ++ mid ++ decimal n ++ ".csv")
    with (("cold" ++ mid) ++ "" ++ decimal n ++ ".csv")
    by (now rewrite (append_assoc "cold")).
  rewrite findall_no_digits_app by (apply no_digits_app; [reflexivity|exact Hd]).
  rewrite findall_number by reflexivity.
  simpl. now rewrite int_decimal.
Qed.

(** Property X20.  [process_meta_info] reads the MCS count and the lattice
    size from header lines of the form "Number of MCS: <m>" and
    "Lattice Size: <l>". *)
Theorem process_meta_info_reads_header (m l : nat) (table : DataFrame Qc) :
  process_meta_info ("Number of MCS: " ++ decimal m) ("Lattice Size: " ++ decimal l)
                    table =
  Ok (mkMeta (Z.of_nat m) (Z.of_nat l) table).
Proof.
  unfold process_meta_info.
  rewrite <- (append_nil_r (decimal m)), <- (append_nil_r (decimal l)).
  rewrite !findall_number by reflexivity.
  simpl. now rewrite ?append_nil_r, !int_decimal.
Qed.

(** Property X21.  The two header lines are not interchangeable: with the
    lattice size on the first line and the MCS count on the second, neither
    pattern is found where it is looked for and the assertion fails. *)
Theorem process_meta_info_swapped_lines (m l : nat) (table : DataFrame Qc) :
  process_meta_info ("Lattice Size: " ++ decimal l) ("Number of MCS: " ++ decimal m)
                    table =
  Raise AssertionError.
Proof.
  unfold process_meta_info.
  assert (H1 : findall "Number of MCS: " ("Lattice Size: " ++ decimal l) = []).
  { simpl append. rewrite !findall_skip_char by reflexivity.
    apply findall_in_digits; [reflexivity|apply decimal_all_digits]. }
  assert (H2 : findall "Lattice Size: " ("Number of MCS: " ++ decimal m) = []).
  { simpl append. rewrite !findall_skip_char by reflexivity.
    apply findall_in_digits; [reflexivity|apply decimal_all_digits]. }
  now rewrite H1, H2.
Qed.

(** Property X22.  The assertion of [process_meta_info] counts the numbers
    found and nothing else: two MCS counts on the first line and no lattice
    size on the second pass it, and the second MCS count is returned as the
    lattice size. *)
Theorem process_meta_info_two_counts_on_line_1 (a b : nat) (text2 : string)
    (table : DataFrame Qc) :
  findall "Lattice Size: " text2 = [] ->
  process_meta_info
    ("Number of MCS: " ++ decimal a ++ " Number of MCS: " ++ decimal b) text2 table =
  Ok (mkMeta (Z.of_nat a) (Z.of_nat b) table).
Proof.
  intros H2. unfold process_meta_info. rewrite H2, app_nil_r.
  rewrite findall_number by reflexivity.
  change (" Number of MCS: " ++ decimal b)
    with (String " " ("Number of MCS: " ++ decimal b)).
  rewrite findall_skip_char by reflexivity.
  rewrite <- (append_nil_r (decimal b)).
  rewrite findall_number by reflexivity.
  simpl. now rewrite ?append_nil_r, !int_decimal.
Qed.

Section Estimator.

Variable np_sqrt : Qc -> fl.

(** ** When [bootstrap] fails *)

Lemma bootstrap_no_repeat (file : DataFrame Qc) (system_size : Z) (beta : Qc)
    (sb repeat thermalization : Z) (g : rng) :
  repeat < 1 ->
  bootstrap np_sqrt file system_size beta sb repeat thermalization g = Ok ([], g).
Proof.
  intros H. unfold bootstrap.
  replace (Z.to_nat repeat) with O by lia. reflexivity.
Qed.

Lemma bootstrap_Raise (file : DataFrame Qc) (system_size : Z) (beta : Qc)
    (sb repeat thermalization : Z) (g : rng) :
  1 <= repeat ->
  sb < 0 \/ Z.of_nat (nrows (iloc_from thermalization file)) < sb ->
  bootstrap np_sqrt file system_size beta sb repeat thermalization g = Raise ValueError.
Proof.
  intros Hr Hsb. unfold bootstrap.
  destruct (Z.to_nat repeat) as [|n] eqn:E; [lia|].
  now rewrite resample_Raise.
Qed.

Lemma bootstrap_Ok (file : DataFrame Qc) (system_size : Z) (beta : Qc)
    (sb repeat thermalization : Z) (g : rng) :
  repeat < 1 \/ 0 <= sb <= Z.of_nat (nrows (iloc_from thermalization file)) ->
  exists estimates g',
    bootstrap np_sqrt file system_size beta sb repeat thermalization g =
    Ok (estimates, g').
Proof.
  intros [H|H].
  - rewrite bootstrap_no_repeat by exact H. eauto.
  - unfold bootstrap.
    destruct (resample_Ok _ system_size beta sb H (Z.to_nat repeat) [] g)
      as (obs & g' & ->).
    simpl. eauto.
Qed.

(** Claim C2, as the code has it.  [bootstrap] fails exactly when at least one
    repeat is requested and the block size is negative or exceeds the number
    of rows left after the thermalization cut; the exception is then the
    [ValueError] of [DataFrame.sample]; with fewer than one repeat requested
    it returns the empty estimate and raises nothing. *)
Theorem bootstrap_failure_cases (file : DataFrame Qc) (system_size : Z) (beta : Qc)
    (sb repeat thermalization : Z) (g : rng) :
  (raises (bootstrap np_sqrt file system_size beta sb repeat thermalization g) <->
   1 <= repeat /\
   (sb < 0 \/ Z.of_nat (nrows (iloc_from thermalization file)) < sb)) /\
  (forall e,
     bootstrap np_sqrt file system_size beta sb repeat thermalization g = Raise e ->
     e = ValueError) /\
  (repeat < 1 ->
   bootstrap np_sqrt file system_size beta sb repeat thermalization g = Ok ([], g)).
Proof.
  assert (Hcases :
    (1 <= repeat /\ (sb < 0 \/ Z.of_nat (nrows (iloc_from thermalization file)) < sb)) \/
    (repeat < 1 \/ 0 <= sb <= Z.of_nat (nrows (iloc_from thermalization file)))) by lia.
  split; [|split].
  - split.
    + intros [e He]. destruct Hcases as [Hc|Hc]; [exact Hc|].
      destruct (bootstrap_Ok file system_size beta sb repeat thermalization g Hc)
        as (est & g' & Hok).
      congruence.
    + intros [Hr Hsb]. exists ValueError. now apply bootstrap_Raise.
  - intros e He. destruct Hcases as [[Hr Hsb]|Hc].
    + rewrite bootstrap_Raise in He by assumption. congruence.
    + destruct (bootstrap_Ok file system_size beta sb repeat thermalization g Hc)
        as (est & g' & Hok).
      congruence.
  - apply bootstrap_no_repeat.
Qed.


Lemma summarize_entries (observables : dict (list fl)) :
  summarize np_sqrt observables = dict_of_list (flat_map (entries np_sqrt) observables).
Proof.
  unfold summarize, dict_of_list, dict_update. generalize (@nil (string * fl)).
  induction observables as [|nv obs IH]; intros acc; simpl; [reflexivity|].
  now rewrite IH.
Qed.

Lemma bootstrap_one_repeat (file : DataFrame Qc) (system_size : Z) (beta : Qc)
    (sb thermalization : Z) (g : rng) (d : dict fl) (g' : rng) :
  sample_events (iloc_from thermalization file) system_size beta sb g = Ok (d, g') ->
  bootstrap np_sqrt file system_size beta sb 1 thermalization g =
  Ok (dict_of_list (flat_map (entries np_sqrt) (map single d)), g').
Proof.
  intros H. unfold bootstrap. change (Z.to_nat 1) with 1%nat. simpl.
  rewrite H. simpl.
  rewrite collect_fresh.
  - simpl. now rewrite summarize_entries.
  - exact (sample_events_NoDup _ _ _ _ _ _ _ H).
  - intros k _ [].
Qed.



(** Claim C5.  For the four-record series with block size 4, one repeat,
    system size 1 and beta 1, every draw gives the block sample
    E = 4, E2 = 21, C = 5, and [bootstrap] reports these three values,
    whatever the state of the random source. *)
Theorem bootstrap_scenario (g : rng) :
  exists g',
    sample_events scenario_series 1 (Qc_of_Z 1) 4 g = Ok (scenario_block, g') /\
    exists estimates,
      bootstrap np_sqrt scenario_series 1 (Qc_of_Z 1) 4 1 0 g = Ok (estimates, g') /\
      dict_get "E" estimates = Some (Fin (Qc_of_Z 4)) /\
      dict_get "E2" estimates = Some (Fin (Qc_of_Z 21)) /\
      dict_get "C" estimates = Some (Fin (Qc_of_Z 5)).
Proof.
  destruct (sample_events_whole_frame scenario_series 1 (Qc_of_Z 1) g) as [g' H].
  change (Z.of_nat (nrows scenario_series)) with 4 in H.
  rewrite scenario_derive in H.
  exists g'. split; [exact H|].
  exists (dict_of_list (flat_map (entries np_sqrt) (map single scenario_block))).
  split.
  - apply bootstrap_one_repeat. exact H.
  - repeat split; vm_compute; eq_values.
Qed.

(** ** The loop over the data files *)

Lemma process_data_for_plotting_inv (meta : MetaInfo) (files : list MCFile)
    (sm sb : Z) (write : bool) (repeat thermalization : Z) (g : rng)
    (table : DataFrame fl) (m size : Z) (g' : rng) :
  process_data_for_plotting np_sqrt meta files sm sb write repeat thermalization g =
  Ok (table, m, size, g') ->
  exists rows_list j,
    process_files np_sqrt (sweep meta) size sb repeat thermalization files [] g =
    Ok (rows_list, g') /\
    size = lsize meta * lsize meta * lsize meta * sm /\
    m = mcs meta /\
    index_of "T" (frame_columns rows_list) = Some j /\
    columns table = frame_columns rows_list /\
    rows table = sort_rows j (map (record_cells (frame_columns rows_list)) rows_list).
Proof.
  unfold process_data_for_plotting.
  destruct (process_files _ _ _ _ _ _ _ _ _) as [[rows_list g1]|e] eqn:E;
    simpl; [|discriminate].
  unfold sort_values, frame_of_records. simpl.
  destruct (index_of "T" (frame_columns rows_list)) as [j|] eqn:Ej;
    simpl; [|discriminate].
  intros [= <- <- <- <-]. exists rows_list, j. rewrite E. repeat split. exact Ej.
Qed.

Lemma process_files_Forall2 (sweep : DataFrame Qc)
    (system_size sb repeat thermalization : Z) :
  forall files rows_list g rows_list' g',
    process_files np_sqrt sweep system_size sb repeat thermalization files rows_list g =
    Ok (rows_list', g') ->
    exists more,
      rows_list' = (rows_list ++ more)%list /\
      Forall2 (row_of_file np_sqrt sweep system_size sb repeat thermalization)
              files more.
Proof.
  induction files as [|f files IH]; intros rows_list g rows_list' g'; simpl.
  - intros [= <- <-]. exists []. rewrite app_nil_r. split; [reflexivity|constructor].
  - destruct (process_file _ _ _ _ _ _ f g) as [[data_dict g1]|e] eqn:E;
      simpl; [|discriminate].
    intros H. destruct (IH _ _ _ _ H) as (more & -> & Hall).
    exists (data_dict :: more). rewrite <- app_assoc. split; [reflexivity|].
    constructor; [now exists g, g1|exact Hall].
Qed.

(** Claim C7.  When the aggregation returns a table, the rows of the table
    are the records of the runs, one record per data file built by the loop
    in the order of the files, laid out under the columns of the table and
    rearranged; the table has a "T" column and the values of that column,
    read from the first row to the last, never decrease (in the order
    [sort_values] uses, in which numbers are ascending and NaN comes last).
    This holds for every list of runs, in whatever order they are given. *)
Theorem process_data_for_plotting_sorted_by_T (meta : MetaInfo) (files : list MCFile)
    (sm sb : Z) (write : bool) (repeat thermalization : Z) (g : rng)
    (table : DataFrame fl) (m size : Z) (g' : rng) :
  process_data_for_plotting np_sqrt meta files sm sb write repeat thermalization g =
  Ok (table, m, size, g') ->
  exists j rows_list,
    Forall2 (row_of_file np_sqrt (sweep meta) size sb repeat thermalization)
            files rows_list /\
    Permutation (rows table) (map (record_cells (columns table)) rows_list) /\
    index_of "T" (columns table) = Some j /\
    StronglySorted fl_le (map (cell j) (rows table)) /\
    (forall a b x y,
       nth_error (rows table) a = Some x -> nth_error (rows table) b = Some y ->
       (a <= b)%nat ->
       forall p q, cell j x = Fin p -> cell j y = Fin q -> (p <= q)%Qc).
Proof.
  intros H. apply process_data_for_plotting_inv in H.
  destruct H as (rows_list & j & Hfiles & _ & _ & Hj & Hc & Hr).
  exists j, rows_list.
  split.
  { destruct (process_files_Forall2 _ _ _ _ _ _ _ _ _ _ Hfiles) as (more & Hm & Hall).
    simpl in Hm. now subst more. }
  rewrite Hc, Hr.
  split; [apply sort_rows_Permutation|].
  assert (Hs := sort_rows_StronglySorted j
                  (map (record_cells (frame_columns rows_list)) rows_list)).
  split; [exact Hj|]. split; [exact Hs|].
  intros a b x y Ha Hb Hab p q Hp Hq.
  apply fl_le_Fin. rewrite <- Hp, <- Hq.
  set (l := sort_rows j _) in *.
  assert (Hx : nth_error (map (cell j) l) a = Some (cell j x)) by now apply map_nth_error.
  assert (Hy : nth_error (map (cell j) l) b = Some (cell j y)) by now apply map_nth_error.
  clear Ha Hb. revert a b Hab Hx Hy. generalize (cell j x) (cell j y).
  induction Hs as [|c cs Hcs IH Hall]; intros u v a b Hab Hx Hy.
  - destruct a; discriminate.
  - destruct a as [|a], b as [|b]; simpl in *.
    + injection Hx as <-. injection Hy as <-.
      unfold fl_le. destruct c as [z|]; simpl; [|reflexivity].
      apply Qle_bool_iff. apply Qle_refl.
    + injection Hx as <-. apply nth_error_In in Hy.
      rewrite Forall_forall in Hall. now apply Hall.
    + lia.
    + apply (IH u v a b); [lia|exact Hx|exact Hy].
Qed.

(** Claim C3, against the code.  With no data file in the directory the list
    of rows is empty, the frame built from it has no column, and sorting it
    by "T" raises [KeyError]: the aggregation does not return an empty
    table. *)
Theorem process_data_for_plotting_no_files (meta : MetaInfo)
    (sm sb : Z) (write : bool) (repeat thermalization : Z) (g : rng) :
  process_data_for_plotting np_sqrt meta [] sm sb write repeat thermalization g =
  Raise KeyError.
Proof. reflexivity. Qed.

Lemma summarize_keys (obs : dict (list fl)) (k : string) :
  In k (dict_keys (summarize np_sqrt obs)) ->
  exists name, In name (dict_keys obs) /\ (k = name \/ k = name ++ "err").
Proof.
  rewrite summarize_entries. unfold dict_of_list. rewrite dict_keys_update.
  intros [[]|H]. apply in_map_iff in H. destruct H as ([k' v] & <- & H).
  apply in_flat_map in H. destruct H as ([name vals] & Hn & He).
  exists name. split; [apply (in_map fst) in Hn; exact Hn|].
  destruct He as [[= <- _]|[[= <- _]|[]]]; [now left|now right].
Qed.

Lemma bootstrap_keys (file : DataFrame Qc) (system_size : Z) (beta : Qc)
    (sb repeat thermalization : Z) (g : rng) (estimates : dict fl) (g' : rng)
    (k : string) :
  bootstrap np_sqrt file system_size beta sb repeat thermalization g =
  Ok (estimates, g') ->
  In k (dict_keys estimates) ->
  exists name,
    (In name (columns file) \/ name = "C" \/ name = "X") /\
    (k = name \/ k = name ++ "err").
Proof.
  unfold bootstrap.
  destruct (resample _ _ _ _ _ _ _) as [[obs g1]|e] eqn:E; simpl; [|discriminate].
  intros [= <- <-] Hk. apply summarize_keys in Hk.
  destruct Hk as (name & Hn & Hk). exists name. split; [|exact Hk].
  destruct (resample_keys _ _ _ _ name _ _ _ _ _ E Hn) as [[]|H]. exact H.
Qed.

Lemma process_file_inv (sweep : DataFrame Qc) (system_size sb repeat thermalization : Z)
    (f : MCFile) (g : rng) (row : dict fl) (g' : rng) :
  process_file np_sqrt sweep system_size sb repeat thermalization f g = Ok (row, g') ->
  exists index beta k estimates,
    hd_error (digits f) = Some index /\
    at_ sweep index "T" = Ok beta /\
    at_ sweep index "K" = Ok k /\
    bootstrap np_sqrt (contents f) system_size beta repeat thermalization
              bootstrap_default_thermalization g = Ok (estimates, g') /\
    row = dict_update (run_parameters k beta) estimates.
Proof.
  unfold process_file. destruct (digits f) as [|index rest]; [discriminate|].
  destruct (at_ sweep index "T") as [beta|e] eqn:ET; simpl; [|discriminate].
  destruct (at_ sweep index "K") as [k|e] eqn:EK; simpl; [|discriminate].
  destruct (bootstrap _ _ _ _ _ _ _ _) as [[est g1]|e] eqn:E; simpl; [|discriminate].
  intros [= <- <-]. exists index, beta, k, est. repeat split; assumption.
Qed.

Lemma process_files_rows (sweep : DataFrame Qc) (system_size sb repeat thermalization : Z) :
  forall files rows_list g rows_list' g',
    process_files np_sqrt sweep system_size sb repeat thermalization files rows_list g =
    Ok (rows_list', g') ->
    forall row, In row rows_list' ->
      In row rows_list \/
      exists f g0 g1,
        In f files /\
        process_file np_sqrt sweep system_size sb repeat thermalization f g0 =
        Ok (row, g1).
Proof.
  induction files as [|f files IH]; intros rows_list g rows_list' g'; simpl.
  - intros [= <- <-] row Hrow. now left.
  - destruct (process_file _ _ _ _ _ _ f g) as [[data_dict g1]|e] eqn:E;
      simpl; [|discriminate].
    intros H row Hrow. destruct (IH _ _ _ _ H row Hrow) as [Hin|Hin].
    + apply in_app_or in Hin. destruct Hin as [Hin|[<-|[]]]; [now left|].
      right. exists f, g, g1. split; [now left|exact E].
    + right. destruct Hin as (f' & g0 & g2 & Hf & Hp).
      exists f', g0, g2. split; [now right|exact Hp].
Qed.

(** Claim C9, as the code has it.  Every row of the returned table comes from
    one data file; the beta handed to [bootstrap] for that file is the entry
    of the metadata table in column "T" at the file's index, unchanged, and
    it is the value in the row's "T" column whenever the file's series has no
    column named "T". *)
Theorem output_row_beta_is_T (meta : MetaInfo) (files : list MCFile)
    (sm sb : Z) (write : bool) (repeat thermalization : Z) (g : rng)
    (table : DataFrame fl) (m size : Z) (g' : rng) :
  process_data_for_plotting np_sqrt meta files sm sb write repeat thermalization g =
  Ok (table, m, size, g') ->
  exists j,
    index_of "T" (columns table) = Some j /\
    forall r, In r (rows table) ->
      exists f index beta k estimates g0 g1,
        In f files /\
        hd_error (digits f) = Some index /\
        at_ (sweep meta) index "T" = Ok beta /\
        bootstrap np_sqrt (contents f)
                  (lsize meta * lsize meta * lsize meta * sm) beta
                  repeat thermalization bootstrap_default_thermalization g0 =
        Ok (estimates, g1) /\
        r = record_cells (columns table)
                         (dict_update (run_parameters k beta) estimates) /\
        (~ In "T" (columns (contents f)) -> cell j r = Fin beta).
Proof.
  intros H. apply process_data_for_plotting_inv in H.
  destruct H as (rows_list & j & Hp & -> & _ & Hj & Hc & Hr).
  exists j. rewrite Hc. split; [exact Hj|].
  intros r Hin. rewrite Hr in Hin.
  apply (Permutation_in r (sort_rows_Permutation j _)) in Hin.
  apply in_map_iff in Hin. destruct Hin as (row & <- & Hrow).
  destruct (process_files_rows _ _ _ _ _ _ _ _ _ _ Hp row Hrow) as [[]|Hf].
  destruct Hf as (f & g0 & g1 & Hf & Hpf).
  apply process_file_inv in Hpf.
  destruct Hpf as (index & beta & k & est & Hd & HT & _ & Hb & ->).
  exists f, index, beta, k, est, g0, g1. repeat split; try assumption.
  intros HnT. rewrite (record_cells_cell _ _ "T" j Hj).
  unfold getitem. rewrite dict_get_update_other; [reflexivity|].
  intros Hk. change (map fst est) with (dict_keys est) in Hk.
  destruct (bootstrap_keys _ _ _ _ _ _ _ _ _ "T" Hb Hk) as (name & Hn & Hk').
  destruct Hk' as [<-|Hk'].
  - destruct Hn as [Hn|[Hn|Hn]]; [contradiction|discriminate|discriminate].
  - exact (T_not_err name Hk').
Qed.

(** Claim C1, against the code.  The call in [process_data_for_plotting]
    passes [repeat] where [bootstrap] expects the block size and
    [thermalization] where it expects the repeat count, and leaves the cut at
    [bootstrap]'s default of 1000; the configured block size reaches nothing.
    For the worked scenario configured as block size 4, one repeat and no
    cut, the table has the columns "K" and "T" only, while the call the claim
    describes estimates E as 4. *)
Theorem process_data_for_plotting_shifts_arguments (g : rng) :
  (forall sweep system_size sb sb' repeat thermalization f g0,
     process_file np_sqrt sweep system_size sb repeat thermalization f g0 =
     process_file np_sqrt sweep system_size sb' repeat thermalization f g0) /\
  process_data_for_plotting np_sqrt scenario_meta [scenario_file] 1 4 false 1 0 g =
  Ok (mkDF ["K"; "T"] [ [Fin (Qc_of_Z 1); Fin (Qc_of_Z 1)] ], 100, 1, g) /\
  exists estimates g',
    bootstrap np_sqrt scenario_series 1 (Qc_of_Z 1) 4 1 0 g = Ok (estimates, g') /\
    dict_get "E" estimates = Some (Fin (Qc_of_Z 4)).
Proof.
  split; [reflexivity|]. split; [vm_compute; reflexivity|].
  destruct (sample_events_whole_frame scenario_series 1 (Qc_of_Z 1) g) as [g' H].
  change (Z.of_nat (nrows scenario_series)) with 4 in H.
  rewrite scenario_derive in H.
  exists (dict_of_list (flat_map (entries np_sqrt) (map single scenario_block))), g'.
  split; [now apply bootstrap_one_repeat|].
  vm_compute. eq_values.
Qed.

(** ** What [bootstrap] stores for one observable *)

Lemma In_entries (obs : dict (list fl)) (k : string) (v : fl) :
  In (k, v) (flat_map (entries np_sqrt) obs) <->
  exists name vals, In (name, vals) obs /\
    ((k = name /\ v = np_mean vals) \/
     (k = name ++ "err" /\ v = np_std np_sqrt vals)).
Proof.
  rewrite in_flat_map. split.
  - intros ([name vals] & Hin & He). exists name, vals. split; [exact Hin|].
    destruct He as [[= <- <-]|[[= <- <-]|[]]]; [left|right]; now split.
  - intros (name & vals & Hin & He). exists (name, vals). split; [exact Hin|].
    destruct He as [[-> ->]|[-> ->]]; [now left|right; now left].
Qed.

Lemma bootstrap_inv (file : DataFrame Qc) (system_size : Z) (beta : Qc)
    (sb repeat thermalization : Z) (g : rng) (estimates : dict fl) (g' : rng) :
  bootstrap np_sqrt file system_size beta sb repeat thermalization g =
  Ok (estimates, g') ->
  exists obs,
    resample (Z.to_nat repeat) (iloc_from thermalization file) system_size beta sb [] g =
    Ok (obs, g') /\
    NoDup (dict_keys obs) /\
    estimates = dict_of_list (flat_map (entries np_sqrt) obs).
Proof.
  unfold bootstrap.
  destruct (resample _ _ _ _ _ _ _) as [[obs g1]|e] eqn:E; simpl; [|discriminate].
  intros [= <- <-]. exists obs. repeat split.
  - apply (resample_NoDup _ _ _ _ _ _ _ _ _ E). constructor.
  - apply summarize_entries.
Qed.

Lemma summarize_get_mean (obs : dict (list fl)) (k : string) (vals : list fl) :
  NoDup (dict_keys obs) ->
  In (k, vals) obs ->
  (forall name, In name (dict_keys obs) -> k <> name ++ "err") ->
  dict_get k (dict_of_list (flat_map (entries np_sqrt) obs)) = Some (np_mean vals).
Proof.
  intros Hnd Hin Hclash. apply dict_get_update_bound.
  - apply in_map_iff. exists (k, np_mean vals). split; [reflexivity|].
    apply In_entries. exists k, vals. split; [exact Hin|left; now split].
  - intros v' Hv'. apply In_entries in Hv'.
    destruct Hv' as (name & vals' & Hin' & [[-> ->]|[Hk _]]).
    + f_equal. exact (NoDup_keys_functional obs name vals' vals Hnd Hin' Hin).
    + exfalso. apply (Hclash name); [|exact Hk].
      apply (in_map fst) in Hin'. exact Hin'.
Qed.

Lemma summarize_get_err (obs : dict (list fl)) (k : string) (vals : list fl) :
  NoDup (dict_keys obs) ->
  In (k, vals) obs ->
  (forall name, In name (dict_keys obs) -> name <> k ++ "err") ->
  dict_get (k ++ "err") (dict_of_list (flat_map (entries np_sqrt) obs)) =
  Some (np_std np_sqrt vals).
Proof.
  intros Hnd Hin Hclash. apply dict_get_update_bound.
  - apply in_map_iff. exists (k ++ "err", np_std np_sqrt vals). split; [reflexivity|].
    apply In_entries. exists k, vals. split; [exact Hin|right; now split].
  - intros v' Hv'. apply In_entries in Hv'.
    destruct Hv' as (name & vals' & Hin' & [[Hk _]|[Hk ->]]).
    + exfalso. apply (Hclash name); [|now symmetry].
      apply (in_map fst) in Hin'. exact Hin'.
    + apply append_inj_r in Hk. subst name. f_equal.
      exact (NoDup_keys_functional obs k vals' vals Hnd Hin' Hin).
Qed.

(** The observables after the loop of a successful [bootstrap]. *)
Lemma bootstrap_observables (file : DataFrame Qc) (system_size : Z) (beta : Qc)
    (sb repeat thermalization : Z) (g : rng) (estimates : dict fl) (g' : rng) :
  bootstrap np_sqrt file system_size beta sb repeat thermalization g =
  Ok (estimates, g') ->
  1 <= repeat ->
  exists obs,
    NoDup (dict_keys obs) /\
    estimates = dict_of_list (flat_map (entries np_sqrt) obs) /\
    (forall k, In k (dict_keys obs) <-> observable (columns file) k) /\
    (forall k vals, In (k, vals) obs ->
       length vals = Z.to_nat repeat /\
       Forall (block_value (iloc_from thermalization file) system_size beta sb k) vals).
Proof.
  intros H Hr. apply bootstrap_inv in H. destruct H as (obs & Hres & Hnd & ->).
  exists obs. split; [exact Hnd|]. split; [reflexivity|].
  assert (Hget := fun k => resample_get _ _ _ _ k _ _ _ _ _ Hres).
  change (columns (iloc_from thermalization file)) with (columns file) in Hget.
  split.
  - intros k. destruct (Hget k) as [Ho Hn]. split.
    + intros Hin. destruct (dict_get_Some_In_keys k obs Hin) as [vs Hvs].
      destruct (observable_dec (columns file) k) as [Hyes|Hno]; [exact Hyes|].
      rewrite (Hn Hno) in Hvs. discriminate.
    + intros Hobs. destruct (Ho Hobs) as (vs & _ & _ & _ & Hsome).
      assert (Hs : dict_get k obs = Some ([] ++ vs)%list) by (apply Hsome; right; lia).
      apply dict_get_In in Hs. apply (in_map fst) in Hs. exact Hs.
  - intros k vals Hin.
    assert (Hk : In k (dict_keys obs)) by (apply (in_map fst) in Hin; exact Hin).
    assert (Hobs : observable (columns file) k).
    { destruct (Hget k) as [_ Hn].
      destruct (observable_dec (columns file) k) as [Hyes|Hno]; [exact Hyes|].
      apply (In_dict_get k vals obs Hnd) in Hin. rewrite (Hn Hno) in Hin. discriminate. }
    destruct (Hget k) as [Ho _].
    destruct (Ho Hobs) as (vs & Hlen & Hall & _ & Hsome).
    assert (Hs : dict_get k obs = Some ([] ++ vs)%list) by (apply Hsome; right; lia).
    simpl in Hs. rewrite (In_dict_get k vals obs Hnd Hin) in Hs.
    injection Hs as ->. split; assumption.
Qed.

(** Property X7.  A successful [bootstrap] returns, when at least one repeat
    is requested, exactly two kinds of entries: one under the name of every
    observable of the series (its columns, "C" when "E" and "E2" are
    columns, "X" when "M" and "M2" are) and one under that name followed by
    "err"; with no repeat it returns no entry. *)
Theorem bootstrap_estimate_names (file : DataFrame Qc) (system_size : Z) (beta : Qc)
    (sb repeat thermalization : Z) (g : rng) (estimates : dict fl) (g' : rng) :
  bootstrap np_sqrt file system_size beta sb repeat thermalization g =
  Ok (estimates, g') ->
  forall k,
    In k (dict_keys estimates) <->
    1 <= repeat /\
    exists name, observable (columns file) name /\ (k = name \/ k = name ++ "err").
Proof.
  intros H k. destruct (Z.lt_ge_cases repeat 1) as [Hr|Hr].
  - rewrite bootstrap_no_repeat in H by exact Hr. injection H as <- <-.
    simpl. split; [intros []|lia].
  - destruct (bootstrap_observables _ _ _ _ _ _ _ _ _ H Hr) as (obs & _ & -> & Hkeys & _).
    unfold dict_of_list. rewrite dict_keys_update. simpl. split.
    + intros [[]|Hin]. split; [exact Hr|].
      apply in_map_iff in Hin. destruct Hin as ([k' v] & <- & Hin).
      apply In_entries in Hin. destruct Hin as (name & vals & Hin & Hk).
      exists name. split.
      * apply Hkeys. apply (in_map fst) in Hin. exact Hin.
      * simpl. destruct Hk as [[-> _]|[-> _]]; [now left|now right].
    + intros (_ & name & Hobs & Hk). right.
      apply Hkeys in Hobs. destruct (dict_get_Some_In_keys name obs Hobs) as [vals Hv].
      apply dict_get_In in Hv.
      destruct Hk as [->| ->].
      * apply in_map_iff. exists (name, np_mean vals). split; [reflexivity|].
        apply In_entries. exists name, vals. split; [exact Hv|left; now split].
      * apply in_map_iff. exists (name ++ "err", np_std np_sqrt vals).
        split; [reflexivity|].
        apply In_entries. exists name, vals. split; [exact Hv|right; now split].
Qed.

(** Property X8.  In a successful [bootstrap] with [repeat >= 1], an
    observable whose name does not collide with the "err" names has as its
    estimate the [np.mean], and under its name followed by "err" the
    [np.std], of exactly [repeat] values, each of them the value of one block
    sample of the series after the thermalization cut. *)
Theorem bootstrap_estimate_of_repeat_blocks (file : DataFrame Qc) (system_size : Z)
    (beta : Qc) (sb repeat thermalization : Z) (g : rng) (estimates : dict fl)
    (g' : rng) (k : string) :
  bootstrap np_sqrt file system_size beta sb repeat thermalization g =
  Ok (estimates, g') ->
  1 <= repeat ->
  observable (columns file) k ->
  (forall name, observable (columns file) name ->
                k <> name ++ "err" /\ name <> k ++ "err") ->
  exists vals,
    length vals = Z.to_nat repeat /\
    Forall (block_value (iloc_from thermalization file) system_size beta sb k) vals /\
    dict_get k estimates = Some (np_mean vals) /\
    dict_get (k ++ "err") estimates = Some (np_std np_sqrt vals).
Proof.
  intros H Hr Hobs Hclash.
  destruct (bootstrap_observables _ _ _ _ _ _ _ _ _ H Hr)
    as (obs & Hnd & -> & Hkeys & Hvals).
  destruct (dict_get_Some_In_keys k obs (proj2 (Hkeys k) Hobs)) as [vals Hv].
  apply dict_get_In in Hv. destruct (Hvals k vals Hv) as [Hlen Hall].
  exists vals. repeat split; try assumption.
  - apply summarize_get_mean; try assumption.
    intros name Hn. apply Hclash. now apply Hkeys.
  - apply summarize_get_err; try assumption.
    intros name Hn. apply Hclash. now apply Hkeys.
Qed.

(** Property X9.  In a successful [bootstrap] with at least one repeat and a
    block of at least one row, the estimate of a raw column is a number, and
    it lies between any two bounds that enclose the values of that column
    after the thermalization cut; this for a column that is not replaced by
    a derived "C" or "X" and whose name is not an observable's name followed
    by "err". *)
Theorem bootstrap_estimate_within_data_range (file : DataFrame Qc) (system_size : Z)
    (beta : Qc) (sb repeat thermalization : Z) (g : rng) (estimates : dict fl)
    (g' : rng) (j : nat) (k : string) (lo hi : Qc) :
  NoDup (columns file) ->
  nth_error (columns file) j = Some k ->
  ~ (k = "C" /\ derives_C (columns file)) ->
  ~ (k = "X" /\ derives_X (columns file)) ->
  (forall name, observable (columns file) name -> k <> name ++ "err") ->
  (forall r, In r (rows (iloc_from thermalization file)) ->
             (lo <= nth j r 0)%Qc /\ (nth j r 0 <= hi)%Qc) ->
  1 <= sb ->
  1 <= repeat ->
  bootstrap np_sqrt file system_size beta sb repeat thermalization g =
  Ok (estimates, g') ->
  exists q, dict_get k estimates = Some (Fin q) /\ (lo <= q)%Qc /\ (q <= hi)%Qc.
Proof.
  intros Hnd Hj HC HX Hclash Hrows Hsb Hr H.
  destruct (bootstrap_observables _ _ _ _ _ _ _ _ _ H Hr)
    as (obs & Hndo & -> & Hkeys & Hvals).
  assert (Hobs : observable (columns file) k) by (left; now apply nth_error_In in Hj).
  destruct (dict_get_Some_In_keys k obs (proj2 (Hkeys k) Hobs)) as [vals Hv].
  apply dict_get_In in Hv. destruct (Hvals k vals Hv) as [Hlen Hall].
  rewrite (summarize_get_mean obs k vals Hndo Hv)
    by (intros name Hn; apply Hclash; now apply Hkeys).
  assert (Hw : within lo hi (np_mean vals)).
  { apply np_mean_within.
    - intros ->. simpl in Hlen. lia.
    - revert Hall. apply Forall_impl. intros v Hv'.
      apply (block_value_within (iloc_from thermalization file) system_size beta sb
                                j k lo hi v); assumption. }
  destruct Hw as (q & -> & Hq). now exists q.
Qed.

(** Property X10.  The records before the thermalization cut do not
    influence [bootstrap]: two files with the same columns that agree from
    record [thermalization] on give the same result. *)
Theorem bootstrap_ignores_records_before_cut (file1 file2 : DataFrame Qc)
    (system_size : Z) (beta : Qc) (sb repeat thermalization : Z) (g : rng) :
  0 <= thermalization ->
  columns file1 = columns file2 ->
  skipn (Z.to_nat thermalization) (rows file1) =
  skipn (Z.to_nat thermalization) (rows file2) ->
  bootstrap np_sqrt file1 system_size beta sb repeat thermalization g =
  bootstrap np_sqrt file2 system_size beta sb repeat thermalization g.
Proof.
  intros Ht Hc Hr. unfold bootstrap.
  rewrite (iloc_from_nonneg thermalization file1 Ht).
  rewrite (iloc_from_nonneg thermalization file2 Ht).
  now rewrite Hc, Hr.
Qed.

(** Property X11.  When the thermalization cut is at or beyond the end of
    the file, no record is left: with a block of at least one row and at
    least one repeat, [bootstrap] raises [ValueError]. *)
Theorem bootstrap_cut_beyond_end (file : DataFrame Qc) (system_size : Z) (beta : Qc)
    (sb repeat thermalization : Z) (g : rng) :
  Z.of_nat (nrows file) <= thermalization ->
  1 <= sb ->
  1 <= repeat ->
  bootstrap np_sqrt file system_size beta sb repeat thermalization g = Raise ValueError.
Proof.
  intros Ht Hsb Hr. apply bootstrap_Raise; [exact Hr|].
  right. rewrite nrows_iloc_from_all by exact Ht. lia.
Qed.

(** Property X12.  A negative [thermalization] does not keep the whole file:
    [df.iloc[t:]] then keeps the last [-t] records only, and [bootstrap]
    gives what it gives, without a cut, on the file reduced to them. *)
Theorem bootstrap_negative_cut_keeps_tail (file : DataFrame Qc) (system_size : Z)
    (beta : Qc) (sb repeat thermalization : Z) (g : rng) :
  thermalization < 0 ->
  bootstrap np_sqrt file system_size beta sb repeat thermalization g =
  bootstrap np_sqrt
    (mkDF (columns file)
          (skipn (length (rows file) - Z.to_nat (- thermalization)) (rows file)))
    system_size beta sb repeat 0 g.
Proof.
  intros Ht. unfold bootstrap.
  rewrite (iloc_from_negative thermalization file Ht).
  now rewrite iloc_from_0.
Qed.

(** ** One row per data file *)

Lemma process_files_length (sweep : DataFrame Qc) (system_size sb repeat thermalization : Z) :
  forall files rows_list g rows_list' g',
    process_files np_sqrt sweep system_size sb repeat thermalization files rows_list g =
    Ok (rows_list', g') ->
    exists more,
      rows_list' = (rows_list ++ more)%list /\ length more = length files.
Proof.
  induction files as [|f files IH]; intros rows_list g rows_list' g'; simpl.
  - intros [= <- <-]. exists []. now rewrite app_nil_r.
  - destruct (process_file _ _ _ _ _ _ f g) as [[data_dict g1]|e]; simpl; [|discriminate].
    intros H. destruct (IH _ _ _ _ H) as (more & -> & Hlen).
    exists (data_dict :: more). rewrite <- app_assoc. simpl. now rewrite Hlen.
Qed.

Lemma process_files_each (sweep : DataFrame Qc) (system_size sb repeat thermalization : Z) :
  forall files rows_list g rows_list' g',
    process_files np_sqrt sweep system_size sb repeat thermalization files rows_list g =
    Ok (rows_list', g') ->
    forall f, In f files ->
      exists g0 row g1,
        process_file np_sqrt sweep system_size sb repeat thermalization f g0 =
        Ok (row, g1).
Proof.
  induction files as [|f files IH]; intros rows_list g rows_list' g'; simpl.
  - intros _ f [].
  - destruct (process_file _ _ _ _ _ _ f g) as [[data_dict g1]|e] eqn:E;
      simpl; [|discriminate].
    intros H f' [<-|Hin]; [now exists g, data_dict, g1|].
    exact (IH _ _ _ _ H f' Hin).
Qed.

Lemma process_files_first (sweep : DataFrame Qc) (system_size sb repeat thermalization : Z)
    (f : MCFile) (files : list MCFile) (g : rng) (rows_list : list (dict fl)) (g' : rng) :
  process_files np_sqrt sweep system_size sb repeat thermalization (f :: files) [] g =
  Ok (rows_list, g') ->
  exists row g1 rest,
    process_file np_sqrt sweep system_size sb repeat thermalization f g = Ok (row, g1) /\
    rows_list = row :: rest.
Proof.
  simpl. destruct (process_file _ _ _ _ _ _ f g) as [[row g1]|e]; simpl; [|discriminate].
  intros H. destruct (process_files_length _ _ _ _ _ _ _ _ _ _ H) as (more & -> & _).
  now exists row, g1, more.
Qed.

(** Property X14.  A table returned by [process_data_for_plotting] has
    exactly one row per data file, and comes with the MCS count of the
    metadata and the system size [lsize^3 * size_multiplier]. *)
Theorem process_data_for_plotting_one_row_per_file (meta : MetaInfo)
    (files : list MCFile) (sm sb : Z) (write : bool) (repeat thermalization : Z)
    (g : rng) (table : DataFrame fl) (m size : Z) (g' : rng) :
  process_data_for_plotting np_sqrt meta files sm sb write repeat thermalization g =
  Ok (table, m, size, g') ->
  nrows table = length files /\
  Forall (fun r => length r = length (columns table)) (rows table) /\
  m = mcs meta /\
  size = lsize meta * lsize meta * lsize meta * sm.
Proof.
  intros H. apply process_data_for_plotting_inv in H.
  destruct H as (rows_list & j & Hp & Hsize & Hm & _ & Hc & Hr).
  destruct (process_files_length _ _ _ _ _ _ _ _ _ _ Hp) as (more & Hrl & Hlen).
  simpl in Hrl. subst rows_list.
  repeat split; try assumption.
  - unfold nrows. rewrite Hr.
    rewrite (Permutation_length (sort_rows_Permutation j _)), length_map. exact Hlen.
  - rewrite Hr, Hc. apply Forall_forall. intros r Hin.
    apply (Permutation_in r (sort_rows_Permutation j _)) in Hin.
    apply in_map_iff in Hin. destruct Hin as (row & <- & _).
    unfold record_cells. apply length_map.
Qed.

(** Property X15.  [process_data_for_plotting] returns a table only if every
    data file has a number in its name that is a row label of the metadata
    table with entries under "T" and "K", and only if, unless
    [thermalization < 1], every data file still has at least [repeat]
    records after its first 1000: the call of [bootstrap] uses [repeat] as
    the block size, [thermalization] as the number of repeats and the cut
    of 1000. *)
Theorem process_data_for_plotting_requirements (meta : MetaInfo)
    (files : list MCFile) (sm sb : Z) (write : bool) (repeat thermalization : Z)
    (g : rng) (table : DataFrame fl) (m size : Z) (g' : rng) :
  process_data_for_plotting np_sqrt meta files sm sb write repeat thermalization g =
  Ok (table, m, size, g') ->
  files <> [] /\
  forall f, In f files ->
    (exists index beta k,
       hd_error (digits f) = Some index /\
       at_ (sweep meta) index "T" = Ok beta /\
       at_ (sweep meta) index "K" = Ok k) /\
    (thermalization < 1 \/
     0 <= repeat <= Z.of_nat (nrows (iloc_from 1000 (contents f)))).
Proof.
  intros H. split.
  { intros ->. discriminate H. }
  apply process_data_for_plotting_inv in H.
  destruct H as (rows_list & j & Hp & _ & _ & _ & _ & _).
  intros f Hf.
  destruct (process_files_each _ _ _ _ _ _ _ _ _ _ Hp f Hf) as (g0 & row & g1 & Hpf).
  apply process_file_inv in Hpf.
  destruct Hpf as (index & beta & k & est & Hd & HT & HK & Hb & _).
  split; [now exists index, beta, k|].
  assert (Hcases :
    (1 <= thermalization /\
     (repeat < 0 \/ Z.of_nat (nrows (iloc_from 1000 (contents f))) < repeat)) \/
    (thermalization < 1 \/
     0 <= repeat <= Z.of_nat (nrows (iloc_from 1000 (contents f))))) by lia.
  destruct Hcases as [[Hr Hbad]|Hgood]; [|exact Hgood].
  unfold bootstrap_default_thermalization in Hb.
  rewrite bootstrap_Raise in Hb by assumption. discriminate.
Qed.

(** Property X16.  The first two columns of a returned table are "K" and
    "T".  Every row of the table is the record of one data file: the
    metadata entries "K" and "T" at the index of the file, updated with the
    estimates [bootstrap] returns for the file and laid out under the columns
    of the table; its first cell is that metadata "K" whenever the series of
    the file has no column named "K". *)
Theorem process_data_for_plotting_K_T_columns (meta : MetaInfo)
    (files : list MCFile) (sm sb : Z) (write : bool) (repeat thermalization : Z)
    (g : rng) (table : DataFrame fl) (m size : Z) (g' : rng) :
  process_data_for_plotting np_sqrt meta files sm sb write repeat thermalization g =
  Ok (table, m, size, g') ->
  (exists tail, columns table = "K" :: "T" :: tail) /\
  forall r, In r (rows table) ->
    exists f index beta k estimates g0 g1,
      In f files /\
      hd_error (digits f) = Some index /\
      at_ (sweep meta) index "K" = Ok k /\
      at_ (sweep meta) index "T" = Ok beta /\
      bootstrap np_sqrt (contents f)
                (lsize meta * lsize meta * lsize meta * sm) beta
                repeat thermalization bootstrap_default_thermalization g0 =
      Ok (estimates, g1) /\
      r = record_cells (columns table)
                       (dict_update (run_parameters k beta) estimates) /\
      (~ In "K" (columns (contents f)) -> nth 0 r NaN = Fin k).
Proof.
  intros H. apply process_data_for_plotting_inv in H.
  destruct H as (rows_list & j & Hp & -> & _ & Hj & Hc & Hr).
  assert (Hcols : exists tail, frame_columns rows_list = "K" :: "T" :: tail).
  { destruct files as [|f files].
    - simpl in Hp. injection Hp as <- _. discriminate Hj.
    - destruct (process_files_first _ _ _ _ _ _ _ _ _ _ Hp) as (row & g1 & rest & Hpf & ->).
      apply process_file_inv in Hpf.
      destruct Hpf as (index & beta & k & est & _ & _ & _ & _ & ->).
      destruct (dict_update_keys_prefix est (run_parameters k beta)) as [tail Ht].
      exact (frame_columns_K_T _ rest tail Ht). }
  split; [now rewrite Hc|].
  destruct Hcols as [tail Hcols].
  intros r Hin. rewrite Hr in Hin.
  apply (Permutation_in r (sort_rows_Permutation j _)) in Hin.
  apply in_map_iff in Hin. destruct Hin as (row & <- & Hrow).
  destruct (process_files_rows _ _ _ _ _ _ _ _ _ _ Hp row Hrow) as [[]|Hf].
  destruct Hf as (f & g0 & g1 & Hf & Hpf).
  apply process_file_inv in Hpf.
  destruct Hpf as (index & beta & k & est & Hd & HT & HK & Hb & ->).
  exists f, index, beta, k, est, g0, g1. rewrite Hc.
  repeat split; try assumption.
  intros HnK. rewrite Hcols. simpl.
  unfold getitem. rewrite dict_get_update_other; [reflexivity|].
  intros Hk. change (map fst est) with (dict_keys est) in Hk.
  destruct (bootstrap_keys _ _ _ _ _ _ _ _ _ "K" Hb Hk) as (name & Hn & Hk').
  destruct Hk' as [<-|Hk'].
  - destruct Hn as [Hn|[Hn|Hn]]; [contradiction|discriminate|discriminate].
  - destruct name as [|c [|c' name]]; simpl in Hk'; discriminate.
Qed.

(** ** From the directory to the object *)

(** Property X19.  A data file whose name has no digit stops the
    aggregation with [NameError], before any file is read. *)
Theorem process_data_for_plotting_name_without_number (meta : MetaInfo)
    (name : string) (df : DataFrame Qc) (others : list (string * DataFrame Qc))
    (sm sb : Z) (write : bool) (repeat thermalization : Z) (g : rng) :
  is_cold_csv name = true ->
  no_digits name = true ->
  process_data_for_plotting np_sqrt meta (cold_files ((name, df) :: others))
                            sm sb write repeat thermalization g =
  Raise NameError.
Proof.
  intros Hc Hd. unfold cold_files. cbn [filter fst]. rewrite Hc. cbn [map fst snd].
  rewrite (findall_no_digits name Hd). reflexivity.
Qed.

(** Property X23.  An [MCDataFrame] built from a directory whose readme.txt
    starts with "Number of MCS: <m>" and "Lattice Size: <l>" reports
    [mcs = m] and [size = l^3 * size_multiplier], keeps the path it was
    given, and its table has one row for each file of the directory whose
    name matches the pattern of the data files. *)
Theorem MCDataFrame_reports_metadata (path : string) (dir : Directory)
    (sm sb : Z) (write : bool) (repeat thermalization : Z) (g : rng)
    (self : MCDataFrame) (g' : rng) (m l : nat) :
  readme_line1 dir = "Number of MCS: " ++ decimal m ->
  readme_line2 dir = "Lattice Size: " ++ decimal l ->
  MCDataFrame_init np_sqrt path dir sm sb write repeat thermalization g =
  Ok (self, g') ->
  mcs_of self = Z.of_nat m /\
  size self = Z.of_nat l * Z.of_nat l * Z.of_nat l * sm /\
  mc_path self = path /\
  nrows (mc_df self) =
  length (filter (fun e => is_cold_csv (fst e)) (listing dir)).
Proof.
  intros H1 H2. unfold MCDataFrame_init, process_data_for_plotting_path.
  rewrite H1, H2.
  assert (Hmeta : process_meta_info ("Number of MCS: " ++ decimal m)
                    ("Lattice Size: " ++ decimal l) (readme_table dir) =
                  Ok (mkMeta (Z.of_nat m) (Z.of_nat l) (readme_table dir))).
  { unfold process_meta_info.
    rewrite <- (append_nil_r (decimal m)), <- (append_nil_r (decimal l)).
    rewrite !findall_number by reflexivity.
    simpl. now rewrite ?append_nil_r, !int_decimal. }
  rewrite Hmeta. simpl bind.
  destruct (process_data_for_plotting _ _ _ _ _ _ _ _ _) as [[[[table mc] sz] g1]|e] eqn:E;
    simpl; [|discriminate].
  intros [= <- <-]. simpl.
  apply process_data_for_plotting_inv in E.
  destruct E as (rows_list & j & Hp & Hsize & Hm & _ & _ & Hr).
  destruct (process_files_length _ _ _ _ _ _ _ _ _ _ Hp) as (more & Hrl & Hlen).
  simpl in Hrl. subst rows_list. simpl in Hsize, Hm.
  repeat split; try assumption.
  unfold nrows. rewrite Hr.
  rewrite (Permutation_length (sort_rows_Permutation j _)), length_map, Hlen.
  unfold cold_files. apply length_map.
Qed.

End Estimator.

(** * Evaluation on concrete inputs *)


(** Counterexample to C2: with zero repeats and a block larger than the
    series, [bootstrap] raises nothing and returns the empty estimate; with
    one repeat it raises [ValueError], which is not an
    [InsufficientDataError]. *)
Lemma bootstrap_zero_repeats_is_silent :
  bootstrap sqrt_approx scenario_series 1 (Qc_of_Z 1) 5 0 0 [] = Ok ([], []) /\
  bootstrap sqrt_approx scenario_series 1 (Qc_of_Z 1) 5 1 0 [] = Raise ValueError /\
  ValueError <> Exception "InsufficientDataError".
Proof. repeat split; try reflexivity. discriminate. Qed.

(** Counterexample to C4: a lag equal to the length fails with
    [AssertionError] and a negative lag with [KeyError]; neither is an
    [InvalidLagError]. *)
Lemma autocorrelation_raises_builtin_errors :
  autocorrelation exact_arithmetic "E" 4 scenario_series = Raise AssertionError /\
  autocorrelation exact_arithmetic "E" (-1) scenario_series = Raise KeyError /\
  AssertionError <> Exception "InvalidLagError" /\
  KeyError <> Exception "InvalidLagError".
Proof. repeat split; try reflexivity; discriminate. Qed.


(** Counterexample to C9: the metadata gives T = 1 for the run, and that is
    the beta used; the run's series has a column "T" with mean 9, and the
    row of the table has 9 under "T". *)
Lemma row_T_overwritten_by_series_column :
  at_ (sweep scenario_meta) 0 "T" = Ok (Qc_of_Z 1) /\
  process_data_for_plotting sqrt_approx scenario_meta [mkFile [0%nat] T_series]
                            1 50 false 1 1 [] =
  Ok (mkDF ["K"; "T"; "Terr"]
           [ [Fin (Qc_of_Z 1); Fin (Qc_of_Z 9); Fin (Qc_of_Z 0)] ],
      100, 1, []).
Proof. split; [reflexivity|]. vm_compute. eq_values. Qed.

(** Counterexample to C10: the series has a raw column "C" whose drawn mean
    is 7; the returned sample has the derived heat capacity, 1, under "C". *)
Lemma derived_C_replaces_raw_C :
  let df := one_record ["E"; "E2"; "C"] [1; 2; 7] in
  sample 1 df [] = Ok (df, []) /\
  col_mean (column_at 2 (rows df)) = Fin (Qc_of_Z 7) /\
  sample_events df 1 (Qc_of_Z 1) 1 [] =
  Ok ([("E", Fin (Qc_of_Z 1)); ("E2", Fin (Qc_of_Z 2)); ("C", Fin (Qc_of_Z 1))], []).
Proof.
  cbv zeta. split; [reflexivity|]. split; vm_compute; eq_values.
Qed.

(** ** The theorems at concrete inputs *)

Lemma scenario_sample_events :
  sample_events (iloc_from 0 scenario_series) 1 (Qc_of_Z 1) 4 scenario_rng =
  Ok (scenario_block, []).
Proof. vm_compute. eq_values. Qed.


Lemma two_runs_returns :
  two_runs_result = Ok (table_of two_runs_result, 100, 8, []).
Proof. vm_compute. reflexivity. Qed.



Lemma two_runs_table_returns :
  two_runs_result = Ok (two_runs_table, 100, 8, []).
Proof. vm_compute. eq_values. Qed.

(** Two long runs given with the higher temperature first come back with the
    lower temperature first: the table holds the records of the two runs,
    the one of the second file in its first row. *)
Lemma process_data_for_plotting_sorted_by_T_witness :
  two_runs_result = Ok (two_runs_table, 100, 8, []) /\
  exists j rows_list,
    Forall2 (row_of_file sqrt_approx (sweep two_runs_meta) 8 50 2 3)
            two_runs rows_list /\
    Permutation (rows two_runs_table)
                (map (record_cells (columns two_runs_table)) rows_list) /\
    index_of "T" (columns two_runs_table) = Some j /\
    StronglySorted fl_le (map (cell j) (rows two_runs_table)).
Proof.
  split; [exact two_runs_table_returns|].
  destruct (process_data_for_plotting_sorted_by_T sqrt_approx two_runs_meta two_runs
              1 50 false 2 3 [] _ _ _ _ two_runs_table_returns)
    as (j & rows_list & Hruns & Hperm & Hj & Hs & _).
  exists j, rows_list. repeat split; assumption.
Defined.

(** Each row of the table of the two long runs comes from one of the two
    files, with the metadata T of that file as beta. *)
Lemma output_row_beta_is_T_witness :
  two_runs_result = Ok (table_of two_runs_result, 100, 8, []) /\
  exists j,
    index_of "T" (columns (table_of two_runs_result)) = Some j /\
    forall r, In r (rows (table_of two_runs_result)) ->
      exists f index beta,
        In f two_runs /\
        hd_error (digits f) = Some index /\
        at_ (sweep two_runs_meta) index "T" = Ok beta /\
        cell j r = Fin beta.
Proof.
  split; [exact two_runs_returns|].
  destruct (output_row_beta_is_T sqrt_approx two_runs_meta two_runs
              1 50 false 2 3 [] _ _ _ _ two_runs_returns) as (j & Hj & Hrows).
  exists j. split; [exact Hj|].
  intros r Hr.
  destruct (Hrows r Hr) as (f & index & beta & k & est & g0 & g1 &
                            Hf & Hd & HT & _ & _ & Hcell).
  exists f, index, beta. repeat split; try assumption.
  apply Hcell.
  destruct Hf as [<-|[<-|[]]]; simpl; intros [H|[H|[]]]; discriminate.
Defined.

(** The sample of the whole worked series has "E" as the mean of the drawn
    rows of the first column. *)
Lemma sample_events_entries_witness :
  NoDup (columns scenario_series) /\
  sample_events scenario_series 1 (Qc_of_Z 1) 4 scenario_rng = Ok (scenario_block, []) /\
  exists block,
    sample 4 scenario_series scenario_rng = Ok (block, []) /\
    dict_get "E" scenario_block = Some (col_mean (column_at 0 (rows block))).
Proof.
  assert (Hnd : NoDup (columns scenario_series)).
  { simpl. repeat constructor; simpl; intuition discriminate. }
  split; [exact Hnd|]. split; [exact scenario_sample_events|].
  destruct (sample_events_entries scenario_series 1 (Qc_of_Z 1) 4 scenario_rng
              scenario_block [] Hnd scenario_sample_events)
    as (block & Hs & Hget & _).
  exists block. split; [exact Hs|].
  apply (Hget 0%nat "E"); [reflexivity| |]; intros [H _]; discriminate.
Defined.

(** ** The further properties at concrete inputs *)

Lemma Qcle_by_computation (x y : Qc) : Qle_bool x y = true -> (x <= y)%Qc.
Proof. intros H. now apply Qle_bool_iff. Qed.

Lemma scenario_observables_no_clash (k : string) :
  k = "E" ->
  forall name, observable (columns scenario_series) name ->
               k <> name ++ "err" /\ name <> k ++ "err".
Proof.
  intros -> name [Hin|[[-> _]|[-> _]]].
  - simpl in Hin. destruct Hin as [<-|[<-|[]]]; split; discriminate.
  - split; discriminate.
  - split; discriminate.
Qed.

Lemma scenario_bootstrap_returns :
  scenario_bootstrap = Ok (fst (value_of ([], []) scenario_bootstrap), []).
Proof. vm_compute. reflexivity. Qed.

Lemma example_object_returns :
  example_object =
  Ok (fst (value_of (mkMCDataFrame "" (mkDF [] []) 0 0, []) example_object), []).
Proof. vm_compute. reflexivity. Qed.

Lemma autocorrelation_missing_column_witness :
  ~ In "M" (columns scenario_series) /\
  autocorrelation exact_arithmetic "M" 1 scenario_series = Raise KeyError.
Proof.
  assert (Hm : ~ In "M" (columns scenario_series)).
  { simpl. intros [H|[H|[]]]; discriminate. }
  split; [exact Hm|].
  apply (autocorrelation_missing_column exact_arithmetic "M" 1 scenario_series Hm).
  simpl. lia.
Defined.

Lemma bootstrap_estimate_names_witness :
  scenario_bootstrap = Ok (fst (value_of ([], []) scenario_bootstrap), []) /\
  In "Cerr" (dict_keys (fst (value_of ([], []) scenario_bootstrap))).
Proof.
  split; [exact scenario_bootstrap_returns|].
  apply (bootstrap_estimate_names sqrt_approx scenario_series 1 (Qc_of_Z 1) 3 2 0
           scenario_rng _ _ scenario_bootstrap_returns "Cerr").
  split; [lia|]. exists "C". split; [|now right].
  right. left. split; [reflexivity|]. split; simpl; auto.
Defined.

Lemma bootstrap_estimate_of_repeat_blocks_witness :
  scenario_bootstrap = Ok (fst (value_of ([], []) scenario_bootstrap), []) /\
  exists vals,
    length vals = 2%nat /\
    dict_get "E" (fst (value_of ([], []) scenario_bootstrap)) = Some (np_mean vals).
Proof.
  split; [exact scenario_bootstrap_returns|].
  destruct (bootstrap_estimate_of_repeat_blocks sqrt_approx scenario_series 1 (Qc_of_Z 1)
              3 2 0 scenario_rng _ _ "E" scenario_bootstrap_returns)
    as (vals & Hlen & _ & Hmean & _).
  - lia.
  - left. simpl. now left.
  - now apply scenario_observables_no_clash.
  - exists vals. split; [exact Hlen|exact Hmean].
Defined.

Lemma bootstrap_estimate_within_data_range_witness :
  scenario_bootstrap = Ok (fst (value_of ([], []) scenario_bootstrap), []) /\
  exists q,
    dict_get "E" (fst (value_of ([], []) scenario_bootstrap)) = Some (Fin q) /\
    (Qc_of_Z 1 <= q)%Qc /\ (q <= Qc_of_Z 7)%Qc.
Proof.
  split; [exact scenario_bootstrap_returns|].
  apply (bootstrap_estimate_within_data_range sqrt_approx scenario_series 1 (Qc_of_Z 1)
           3 2 0 scenario_rng _ [] 0%nat "E" (Qc_of_Z 1) (Qc_of_Z 7)).
  - simpl. repeat constructor; simpl; intuition discriminate.
  - reflexivity.
  - intros [H _]. discriminate.
  - intros [H _]. discriminate.
  - intros name Hn. now apply (scenario_observables_no_clash "E" eq_refl name Hn).
  - intros r Hr. simpl in Hr.
    destruct Hr as [<-|[<-|[<-|[<-|[]]]]]; split; apply Qcle_by_computation; reflexivity.
  - lia.
  - lia.
  - exact scenario_bootstrap_returns.
Defined.

Lemma bootstrap_ignores_records_before_cut_witness :
  skipn 1 (rows scenario_series_other_start) = skipn 1 (rows scenario_series) /\
  bootstrap sqrt_approx scenario_series_other_start 1 (Qc_of_Z 1) 2 3 1 scenario_rng =
  bootstrap sqrt_approx scenario_series 1 (Qc_of_Z 1) 2 3 1 scenario_rng.
Proof.
  split; [reflexivity|].
  apply (bootstrap_ignores_records_before_cut sqrt_approx); [lia|reflexivity|reflexivity].
Defined.

Lemma bootstrap_cut_beyond_end_witness :
  Z.of_nat (nrows scenario_series) <= 4 /\
  bootstrap sqrt_approx scenario_series 1 (Qc_of_Z 1) 1 1 4 scenario_rng = Raise ValueError.
Proof.
  assert (H : Z.of_nat (nrows scenario_series) <= 4) by (simpl; lia).
  split; [exact H|].
  apply (bootstrap_cut_beyond_end sqrt_approx); [exact H|lia|lia].
Defined.

Lemma bootstrap_negative_cut_keeps_tail_witness :
  -2 < 0 /\
  bootstrap sqrt_approx scenario_series 1 (Qc_of_Z 1) 2 1 (-2) scenario_rng =
  bootstrap sqrt_approx
    (mkDF ["E"; "E2"] [ [Qc_of_Z 5; Qc_of_Z 25]; [Qc_of_Z 7; Qc_of_Z 49] ])
    1 (Qc_of_Z 1) 2 1 0 scenario_rng.
Proof.
  split; [lia|].
  exact (bootstrap_negative_cut_keeps_tail sqrt_approx scenario_series 1 (Qc_of_Z 1)
           2 1 (-2) scenario_rng ltac:(lia)).
Defined.

Lemma process_data_for_plotting_one_row_per_file_witness :
  two_runs_result = Ok (table_of two_runs_result, 100, 8, []) /\
  nrows (table_of two_runs_result) = 2%nat.
Proof.
  split; [exact two_runs_returns|].
  exact (proj1 (process_data_for_plotting_one_row_per_file sqrt_approx two_runs_meta
                  two_runs 1 50 false 2 3 [] _ _ _ _ two_runs_returns)).
Defined.

Lemma process_data_for_plotting_requirements_witness :
  two_runs_result = Ok (table_of two_runs_result, 100, 8, []) /\
  two_runs <> [].
Proof.
  split; [exact two_runs_returns|].
  exact (proj1 (process_data_for_plotting_requirements sqrt_approx two_runs_meta
                  two_runs 1 50 false 2 3 [] _ _ _ _ two_runs_returns)).
Defined.

Lemma process_data_for_plotting_K_T_columns_witness :
  two_runs_result = Ok (two_runs_table, 100, 8, []) /\
  (exists tail, columns two_runs_table = "K" :: "T" :: tail) /\
  forall r, In r (rows two_runs_table) ->
    exists f index k,
      In f two_runs /\
      hd_error (digits f) = Some index /\
      at_ (sweep two_runs_meta) index "K" = Ok k /\
      nth 0 r NaN = Fin k.
Proof.
  split; [exact two_runs_table_returns|].
  destruct (process_data_for_plotting_K_T_columns sqrt_approx two_runs_meta
              two_runs 1 50 false 2 3 [] _ _ _ _ two_runs_table_returns)
    as [Hcols Hrows].
  split; [exact Hcols|].
  intros r Hr.
  destruct (Hrows r Hr) as (f & index & beta & k & est & g0 & g1 &
                            Hf & Hd & HK & _ & _ & _ & Hcell).
  exists f, index, k. repeat split; try assumption.
  apply Hcell.
  destruct Hf as [<-|[<-|[]]]; simpl; intros [H|[H|[]]]; discriminate.
Defined.

Lemma cold_files_index_witness :
  no_digits "_" = true /\ newline_free "_" /\
  cold_files [("cold_12.csv", long_series)] = [mkFile [12%nat] long_series].
Proof.
  split; [reflexivity|]. split; [reflexivity|].
  exact (cold_files_index "_" 12 long_series eq_refl eq_refl).
Defined.

Lemma process_data_for_plotting_name_without_number_witness :
  is_cold_csv "cold.csv" = true /\ no_digits "cold.csv" = true /\
  process_data_for_plotting sqrt_approx two_runs_meta
    (cold_files [("cold.csv", long_series)]) 1 50 false 2 3 [] = Raise NameError.
Proof.
  split; [reflexivity|]. split; [reflexivity|].
  exact (process_data_for_plotting_name_without_number sqrt_approx two_runs_meta
           "cold.csv" long_series [] 1 50 false 2 3 [] eq_refl eq_refl).
Defined.

Lemma process_meta_info_two_counts_on_line_1_witness :
  findall "Lattice Size: " "no size here" = [] /\
  process_meta_info "Number of MCS: 100 Number of MCS: 7" "no size here"
                    (mkDF [] []) =
  Ok (mkMeta 100 7 (mkDF [] [])).
Proof.
  split; [reflexivity|].
  exact (process_meta_info_two_counts_on_line_1 100 7 "no size here" (mkDF [] []) eq_refl).
Defined.

Lemma MCDataFrame_reports_metadata_witness :
  example_object =
  Ok (fst (value_of (mkMCDataFrame "" (mkDF [] []) 0 0, []) example_object), []) /\
  mcs_of (fst (value_of (mkMCDataFrame "" (mkDF [] []) 0 0, []) example_object)) = 100 /\
  size (fst (value_of (mkMCDataFrame "" (mkDF [] []) 0 0, []) example_object)) = 8 /\
  nrows (mc_df (fst (value_of (mkMCDataFrame "" (mkDF [] []) 0 0, []) example_object))) =
  2%nat.
Proof.
  split; [exact example_object_returns|].
  destruct (MCDataFrame_reports_metadata sqrt_approx "data" example_dir 1 50 false 2 3 []
              _ _ 100 2 eq_refl eq_refl example_object_returns)
    as (Hm & Hs & _ & Hn).
  split; [exact Hm|]. split; [exact Hs|exact Hn].
Defined.
